(** * CausalityClass: a shallow embedding of src/CausalityClass.py

    The class builds an aligned data matrix from a mapping of named
    series, runs PCMCI causal discovery and a linear mediation fit on it
    (both from the Tigramite package), and bootstraps the fit by deleting
    one block of months per iteration.

    Modelling choices.
    - A Python [dict] is an association list in insertion order (the code
      reads [d_keys[0]] and joins the keys in that order).
    - Names are byte strings; NumPy orders them code unit by code unit,
      which is [String.compare].
    - A Python exception is the [Raise] branch of [result]; the mutable
      parts of the process (NumPy's global random state and the field
      [self.linear_mediator]) are threaded through a state monad that also
      collects the observable events of a call: plots, library fits and
      the final archive.  Console output is not an event.
    - The time-series plot writes a file and raises when it cannot
      ([tp_plot_timeseries]); its event records a plot that was made.
      The event [savez] is the call of [np.savez]; whether the file
      system accepts that write is outside the model.
    - NumPy and Tigramite numerics are an interface ([External]); the
      generic NumPy array operations the class relies on ([intersect1d],
      [vstack], [transpose], [delete], [choice]) are written out. *)

From Stdlib Require Import String Ascii.
From Stdlib Require Import List ZArith Lia Bool Arith.
From Stdlib Require Import Sorting.Permutation Sorting.Sorted.
Import ListNotations.

Set Implicit Arguments.
Open Scope Z_scope.

(** ** Python outcomes *)

Inductive exn : Type :=
| IndexError
| KeyError
| ValueError
| TypeError
| AttributeError
| FileNotFoundError.

Inductive result (A : Type) : Type :=
| Ok (a : A)
| Raise (e : exn).

Arguments Ok {A} a.
Arguments Raise {A} e.

Definition result_bind {A B} (r : result A) (f : A -> result B) : result B :=
  match r with
  | Ok a => f a
  | Raise e => Raise e
  end.

Fixpoint result_map_list {A B} (f : A -> result B) (l : list A)
  : result (list B) :=
  match l with
  | [] => Ok []
  | x :: t =>
      result_bind (f x) (fun y =>
      result_bind (result_map_list f t) (fun ys => Ok (y :: ys)))
  end.

(** ** Python built-ins *)

Module Py.

(** [list(range(a, b))] *)
Definition range (a b : Z) : list Z :=
  map (fun k => a + Z.of_nat k) (seq 0 (Z.to_nat (b - a))).

(** [list(range(a, b, step))]; a zero step is a [ValueError]. *)
Definition range_step (a b step : Z) : result (list Z) :=
  if step =? 0 then Raise ValueError
  else
    let n := if 0 <? step then (b - a + step - 1) / step
             else (a - b - step - 1) / (- step) in
    Ok (map (fun k => a + Z.of_nat k * step) (seq 0 (Z.to_nat n))).

Definition len {A} (l : list A) : Z := Z.of_nat (length l).

(** [l[i]] for a literal non-negative index. *)
Definition index {A} (l : list A) (i : nat) : result A :=
  match nth_error l i with
  | Some x => Ok x
  | None => Raise IndexError
  end.

(** [list(d.keys())] and [d[k]] on a dict kept in insertion order. *)
Definition keys {A} (d : list (string * A)) : list string := map fst d.

Fixpoint getitem {A} (d : list (string * A)) (k : string) : result A :=
  match d with
  | [] => Raise KeyError
  | (k', v) :: t => if String.eqb k' k then Ok v else getitem t k
  end.

(** [sep.join(l)] *)
Definition join (sep : string) (l : list string) : string :=
  String.concat sep l.

(** ["... %.2f ... %.2f ... %.2f ... %.2f" % tuple(xs)]: the format has
    four conversions, any other tuple length is a [TypeError]. *)
Definition format4 {A} (xs : list A) : result unit :=
  if Nat.eqb (length xs) 4 then Ok tt else Raise TypeError.

End Py.

(** ** NumPy array operations used by the class *)

Module Np.

Fixpoint insert (x : string) (l : list string) : list string :=
  match l with
  | [] => [x]
  | y :: t => if String.leb x y then x :: l else y :: insert x t
  end.

(** [ar.sort()] on an array of strings. *)
Fixpoint sort (l : list string) : list string :=
  match l with
  | [] => []
  | x :: t => insert x (sort t)
  end.

(** [aux[mask]] with [mask[0] = True], [mask[1:] = aux[1:] != aux[:-1]]:
    the first element of every run. *)
Fixpoint run_heads (l : list string) : list string :=
  match l with
  | [] => []
  | x :: t =>
      match t with
      | [] => [x]
      | y :: _ => if String.eqb x y then run_heads t else x :: run_heads t
      end
  end.

(** [np.unique(ar)] *)
Definition unique (l : list string) : list string := run_heads (sort l).

(** [aux[:-1][aux[1:] == aux[:-1]]] *)
Fixpoint adjacent_equal (l : list string) : list string :=
  match l with
  | [] => []
  | x :: t =>
      match t with
      | [] => []
      | y :: _ =>
          if String.eqb x y then x :: adjacent_equal t else adjacent_equal t
      end
  end.

(** [np.intersect1d(ar1, ar2)] *)
Definition intersect1d (ar1 ar2 : list string) : list string :=
  adjacent_equal (sort (unique ar1 ++ unique ar2)).

(** [np.arange(n)] *)
Definition arange (n : Z) : list Z := Py.range 0 n.

Section Arrays.
Context {A : Type}.

(** [np.vstack(rows)] on 1-D arrays: one row per array; no array, or
    arrays of different lengths, is a [ValueError]. *)
Definition vstack (rows : list (list A)) : result (list (list A)) :=
  match rows with
  | [] => Raise ValueError
  | r :: t =>
      if forallb (fun r' => Nat.eqb (length r') (length r)) t
      then Ok rows
      else Raise ValueError
  end.

Fixpoint zip_cons (c : list A) (rows : list (list A)) : list (list A) :=
  match c, rows with
  | x :: c', r :: rows' => (x :: r) :: zip_cons c' rows'
  | _, _ => []
  end.

(** [m.transpose()] of a stacked array whose rows have length [T]. *)
Definition transpose (m : list (list A)) : list (list A) :=
  fold_right zip_cons (repeat [] (length (hd [] m))) m.

(** [np.delete(arr, obj, axis=0)] with a list of integers: an index
    outside [-n, n) is an [IndexError], a negative one counts from
    the end, and every listed row is dropped. *)
Definition normalize_index (n i : Z) : nat :=
  Z.to_nat (if i <? 0 then i + n else i).

Fixpoint drop_rows (drop : list nat) (j : nat) (arr : list A) : list A :=
  match arr with
  | [] => []
  | r :: t =>
      if existsb (Nat.eqb j) drop then drop_rows drop (S j) t
      else r :: drop_rows drop (S j) t
  end.

Definition delete (arr : list A) (obj : list Z) : result (list A) :=
  let n := Py.len arr in
  if forallb (fun i => (- n <=? i) && (i <? n)) obj
  then Ok (drop_rows (map (normalize_index n) obj) 0 arr)
  else Raise IndexError.

End Arrays.

End Np.

(** ** Tigramite's data frame and the external numerics *)

(** [pp.DataFrame(data, datatime=..., var_names=...)]: the three attributes
    the class sets or reads.  [df_values] is the (T x N) array as a list of
    T rows. *)
Record DataFrame (V : Type) : Type := mkDataFrame {
  df_values : list (list V);
  df_datatime : list Z;
  df_var_names : list string
}.

Definition set_values {V} (df : DataFrame V) (vals : list (list V))
  : DataFrame V :=
  mkDataFrame vals (df_datatime df) (df_var_names df).

(** What the class takes from NumPy's generator and from Tigramite.
    [np_random_randint st pop n] draws [n] positions below [pop] from the
    generator state [st]; the Tigramite calls are functions of their
    arguments (the independence test is [ParCorr(significance='analytic')],
    which draws no random numbers) and may raise.  [tp_plot_timeseries df
    save_name] is the outcome of drawing [df] into the file [save_name]. *)
Class External : Type := {
  value : Type;
  rng_state : Type;
  np_random_seed : Z -> rng_state;
  np_random_randint : rng_state -> nat -> nat -> list nat * rng_state;
  p_matrix : Type;
  val_matrix : Type;
  parents : Type;
  link_matrix : Type;
  mediator : Type;
  run_pcmci : DataFrame value -> Z -> Z -> result (p_matrix * val_matrix);
  get_corrected_pvalues : p_matrix -> p_matrix;
  return_significant_parents :
    p_matrix -> val_matrix -> value -> parents * link_matrix;
  LinearMediation : DataFrame value -> mediator;
  fit_model : mediator -> parents -> Z -> result mediator;
  get_val_matrix : mediator -> val_matrix;
  get_all_ace : mediator -> list value;
  get_all_acs : mediator -> list value;
  tp_plot_timeseries : DataFrame value -> string -> result unit
}.

(** The documented contracts of those calls: [randint] returns the
    requested number of positions, all below the population size, and the
    ACE and ACS arrays of a fitted model have one entry per variable. *)
Class ExternalSpec (E : External) : Prop := {
  randint_length : forall st pop n,
    length (fst (np_random_randint st pop n)) = n;
  randint_bound : forall st pop n,
    (0 < pop)%nat ->
    Forall (fun j => (j < pop)%nat) (fst (np_random_randint st pop n));
  ace_length : forall df ps tau m,
    fit_model (LinearMediation df) ps tau = Ok m ->
    length (get_all_ace m) = length (df_var_names df);
  acs_length : forall df ps tau m,
    fit_model (LinearMediation df) ps tau = Ok m ->
    length (get_all_acs m) = length (df_var_names df)
}.

Section Model.
Context {E : External}.

(** ** Data model *)

(** A series container: [ds.variables[name].values]. *)
Record Dataset : Type := mkDataset {
  variables : list (string * list value)
}.

(** The options [read_yaml_file] returns from [config.yml]. *)
Record Config : Type := mkConfig {
  cfg_path : string;
  cfg_tau_min : Z;
  cfg_tau_max : Z;
  cfg_significance_level : value;
  cfg_save_path : string;
  cfg_range_months : list Z;
  cfg_boot_iters : Z
}.

(** The attributes [__init__] sets and no method reassigns. *)
Record CausalityClass : Type := mkCausalityClass {
  D : list (string * Dataset);
  var_names : list string;
  path : string;
  tau_min : Z;
  tau_max : Z;
  alpha_level : value;
  save_path : string;
  range_months : list Z;
  boot_iter : Z
}.

(** The mutable state a call can read or change. *)
Record world : Type := mkWorld {
  rng : rng_state;
  linear_mediator : option mediator
}.

Inductive event : Type :=
| plot_timeseries (df : DataFrame value) (save_name : string)
| pcmci_run (df : DataFrame value) (tmin tmax : Z)
| mediation_fit (df : DataFrame value) (ps : parents) (tmax : Z)
| savez (file : string) (indices : list Z) (coeffs : list val_matrix)
        (all_ace all_acs : list (list value)).

(** ** The monad of method bodies *)

Definition M (A : Type) : Type := world -> result A * world * list event.

Definition ret {A} (a : A) : M A := fun w => (Ok a, w, []).

Definition bind {A B} (m : M A) (f : A -> M B) : M B :=
  fun w =>
    match m w with
    | (Ok a, w1, es1) =>
        match f a w1 with
        | (r, w2, es2) => (r, w2, es1 ++ es2)
        end
    | (Raise e, w1, es1) => (Raise e, w1, es1)
    end.

Definition lift {A} (r : result A) : M A := fun w => (r, w, []).

Definition emit (ev : event) : M unit := fun w => (Ok tt, w, [ev]).

Definition get_rng : M rng_state := fun w => (Ok (rng w), w, []).

Definition put_rng (st : rng_state) : M unit :=
  fun w => (Ok tt, mkWorld st (linear_mediator w), []).

(** [self.linear_mediator.<method>]: reading a method of [None] is an
    [AttributeError]. *)
Definition get_linear_mediator : M mediator :=
  fun w =>
    match linear_mediator w with
    | Some m => (Ok m, w, [])
    | None => (Raise AttributeError, w, [])
    end.

Definition put_linear_mediator (m : mediator) : M unit :=
  fun w => (Ok tt, mkWorld (rng w) (Some m), []).

End Model.

Declare Scope py_scope.
Delimit Scope py_scope with py.
Notation "x <- m ;; k" := (bind m (fun x => k))
  (at level 100, m at next level, right associativity) : py_scope.
Notation "' p <- m ;; k" := (bind m (fun p => k))
  (at level 100, p pattern, m at next level, right associativity) : py_scope.
Notation "m ;;; k" := (bind m (fun _ => k))
  (at level 100, right associativity) : py_scope.

Section Methods.
Context {E : External}.
Local Open Scope py_scope.

(** [np.random.choice(a=a, size=size, replace=True)] on the global
    generator: an empty population with a non-zero size, or a negative
    size, is a [ValueError]. *)
Definition np_random_choice (a : list Z) (size : Z) : M (list Z) :=
  if (Nat.eqb (length a) 0 && negb (size =? 0))%bool
  then lift (Raise ValueError)
  else if size <? 0 then lift (Raise ValueError)
  else
    st <- get_rng ;;
    let drawn := np_random_randint st (length a) (Z.to_nat size) in
    put_rng (snd drawn) ;;;
    ret (map (fun j => nth j a 0) (fst drawn)).

(** [__init__(self, D)] with the configuration read from [config.yml]. *)
Definition init (d : list (string * Dataset)) (cfg : Config)
  : CausalityClass :=
  {| D := d;
     var_names := Py.keys d;
     path := cfg_path cfg;
     tau_min := cfg_tau_min cfg;
     tau_max := cfg_tau_max cfg;
     alpha_level := cfg_significance_level cfg;
     save_path := cfg_save_path cfg;
     range_months := cfg_range_months cfg;
     boot_iter := cfg_boot_iters cfg |}.

Definition init_world (st : rng_state) : world := mkWorld st None.

(** [tp.plot_timeseries(dataframe, ..., save_name=self.save_path +
    'timeseries_data_plot')]: the call draws the figure and writes it to
    the file; it raises when the file cannot be written, for instance
    [FileNotFoundError] when the directory of [save_path] is missing.  The
    event records a plot that was made. *)
Definition plot_time_series (self : CausalityClass) (df : DataFrame value)
  : M unit :=
  let save_name := String.append (save_path self) "timeseries_data_plot" in
  lift (tp_plot_timeseries df save_name) ;;;
  emit (plot_timeseries df save_name).

(** [D[k].variables[k].values] *)
Definition series_of (d : list (string * Dataset)) (k : string)
  : result (list value) :=
  result_bind (Py.getitem d k) (fun ds => Py.getitem (variables ds) k).

Definition generate_dataframe (self : CausalityClass)
           (d : list (string * Dataset))
  : M (DataFrame value * list string) :=
  let d_keys := Py.keys d in
  let matched_indexes := Np.intersect1d (var_names self) d_keys in
  dataset <- lift (result_map_list (series_of d) matched_indexes) ;;
  stacked <- lift (Np.vstack dataset) ;;
  let indices := Np.transpose stacked in
  let dataframe :=
    mkDataFrame indices (Np.arange (Py.len indices)) matched_indexes in
  (if boot_iter self =? 0 then plot_time_series self dataframe
   else ret tt) ;;;
  ret (dataframe, matched_indexes).

Definition construct_causal_graph (self : CausalityClass)
           (dataframe : DataFrame value)
  : M (parents * link_matrix) :=
  emit (pcmci_run dataframe (tau_min self) (tau_max self)) ;;;
  results <- lift (run_pcmci dataframe (tau_min self) (tau_max self)) ;;
  let q_matrix := get_corrected_pvalues (fst results) in
  ret (return_significant_parents q_matrix (snd results)
         (alpha_level self)).

Definition linear_estimator (self : CausalityClass)
           (sig_parents : parents * link_matrix)
           (dataframe : DataFrame value)
  : M (val_matrix * link_matrix) :=
  let all_parents := fst sig_parents in
  let link_matrix := snd sig_parents in
  put_linear_mediator (LinearMediation dataframe) ;;;
  m <- get_linear_mediator ;;
  emit (mediation_fit dataframe all_parents (tau_max self)) ;;;
  fitted <- lift (fit_model m all_parents (tau_max self)) ;;
  put_linear_mediator fitted ;;;
  m' <- get_linear_mediator ;;
  ret (get_val_matrix m', link_matrix).

(** Prints the names and the coefficient table of the current
    [self.linear_mediator]; only the attribute access can fail. *)
Definition get_links_beta_coeffs (self : CausalityClass) : M unit :=
  _ <- get_linear_mediator ;;
  ret tt.

(** [len(list(range(self.range_months[0], self.range_months[1] + 1)))] *)
Definition n_months (self : CausalityClass) : result Z :=
  result_bind (Py.index (range_months self) 0) (fun r0 =>
  result_bind (Py.index (range_months self) 1) (fun r1 =>
  Ok (Py.len (Py.range r0 (r1 + 1))))).

(** [self.D[k].variables[k].values.shape[0]] for [k = d_keys[0]] *)
Definition first_series_length (self : CausalityClass) : result Z :=
  result_bind (Py.index (Py.keys (D self)) 0) (fun k =>
  result_bind (series_of (D self) k) (fun s => Ok (Py.len s))).

Definition generate_random_indices (self : CausalityClass) : M (list Z) :=
  put_rng (np_random_seed 113) ;;;
  n_mons <- lift (n_months self) ;;
  t <- lift (first_series_length self) ;;
  sample_size <- lift (Py.range_step 0 t n_mons) ;;
  let n_iter := boot_iter self in
  np_random_choice sample_size n_iter.

(** The three lists [bootrstapping] appends to. *)
Record collected : Type := mkCollected {
  all_val_matrices : list val_matrix;
  all_ace : list (list value);
  all_acs : list (list value)
}.

(** One pass of the [for i in rnd_inds] body. *)
Definition bootstrap_iteration (self : CausalityClass) (i : Z)
           (acc : collected) : M collected :=
  built <- generate_dataframe self (D self) ;;
  let dataframe := fst built in
  n_mons <- lift (n_months self) ;;
  let rng := Py.range i (i + n_mons) in
  trimmed <- lift (Np.delete (df_values dataframe) rng) ;;
  let dataframe := set_values dataframe trimmed in
  sig_parents <- construct_causal_graph self dataframe ;;
  _ <- linear_estimator self sig_parents dataframe ;;
  med <- get_linear_mediator ;;
  let val_matrix := get_val_matrix med in
  get_links_beta_coeffs self ;;;
  let vals := all_val_matrices acc ++ [val_matrix] in
  let aces := all_ace acc ++ [get_all_ace med] in
  let acss := all_acs acc ++ [get_all_acs med] in
  lift (Py.format4 (get_all_ace med)) ;;;
  lift (Py.format4 (get_all_acs med)) ;;;
  ret (mkCollected vals aces acss).

Fixpoint bootstrap_loop (self : CausalityClass) (rnd_inds : list Z)
         (acc : collected) : M collected :=
  match rnd_inds with
  | [] => ret acc
  | i :: rest =>
      acc' <- bootstrap_iteration self i acc ;;
      bootstrap_loop self rest acc'
  end.

(** The file name handed to [np.savez]. *)
Definition archive_name (self : CausalityClass) : string :=
  String.append (String.append (path self) "bootstrap")
    (Py.join "_" (var_names self)).

Definition bootrstapping (self : CausalityClass) : M unit :=
  rnd_inds <- generate_random_indices self ;;
  acc <- bootstrap_loop self rnd_inds (mkCollected [] [] []) ;;
  emit (savez (archive_name self) rnd_inds
          (all_val_matrices acc) (all_ace acc) (all_acs acc)).

(** Causal Search followed by the Mediation Estimator on one data frame
    (lines 299-300 of the loop body). *)
Definition search_and_estimate (self : CausalityClass)
           (dataframe : DataFrame value)
  : M ((parents * link_matrix) * val_matrix) :=
  sig_parents <- construct_causal_graph self dataframe ;;
  fit <- linear_estimator self sig_parents dataframe ;;
  ret (sig_parents, fst fit).

(** The call [tp.plot_graph(val_matrix=..., link_matrix=...,
    var_names=self.var_names, ..., save_name=path_name)]; its styling
    arguments are constants. *)
Record plot_graph_call : Type := mkPlotGraph {
  pg_val_matrix : val_matrix;
  pg_link_matrix : link_matrix;
  pg_var_names : list string;
  pg_save_name : string
}.

(** [plot_cens_graph(self, val_matrix, link_matrix, save=False)]: the
    figure is created either way; the graph is drawn inside [if save:]
    only.  The result is the call to [tp.plot_graph], if one is made. *)
Definition plot_cens_graph (self : CausalityClass) (val_matrix : val_matrix)
           (link_matrix : link_matrix) (save : bool)
  : option plot_graph_call :=
  if save then
    let path_name :=
      String.append (String.append (save_path self) "cen")
        (Py.join "_" (var_names self)) in
    Some (mkPlotGraph val_matrix link_matrix (var_names self) path_name)
  else None.

End Methods.

(** [c in s] for a one-character [c]. *)
Fixpoint has_char (c : ascii) (s : string) : bool :=
  match s with
  | EmptyString => false
  | String c' s' => (Ascii.eqb c c' || has_char c s')%bool
  end.

(** ** What a caller observes of a call, and when two states agree *)

Section Observations.
Context {E : External}.

(** The result and the events of a call, without the final state. *)
Definition outcome {A} (x : result A * world * list event)
  : result A * list event :=
  (fst (fst x), snd x).

Definition final_world {A} (x : result A * world * list event) : world :=
  snd (fst x).

(** Two states agree on the generator when [r] is set and on the mediator
    field when [m] is set. *)
Definition agree (r m : bool) (w1 w2 : world) : Prop :=
  (r = true -> rng w1 = rng w2) /\
  (m = true -> linear_mediator w1 = linear_mediator w2).

(** [related P c Q]: from two states related by [P] the call [c] has the
    same result and the same events, and when it returns it leaves two
    states related by [Q]. *)
Definition related {A} (P : world -> world -> Prop) (c : M A)
           (Q : world -> world -> Prop) : Prop :=
  forall w1 w2, P w1 w2 ->
    outcome (c w1) = outcome (c w2) /\
    (forall a, fst (fst (c w1)) = Ok a ->
               Q (final_world (c w1)) (final_world (c w2))).

(** Lines 77-83 of [generate_dataframe]: the stacked data frame and its
    column names, before the optional plot. *)
Definition stacked_frame (self : CausalityClass)
           (d : list (string * Dataset))
  : result (DataFrame value * list string) :=
  let matched_indexes := Np.intersect1d (var_names self) (Py.keys d) in
  result_bind (result_map_list (series_of d) matched_indexes) (fun dataset =>
  result_bind (Np.vstack dataset) (fun stacked =>
  let indices := Np.transpose stacked in
  Ok (mkDataFrame indices (Np.arange (Py.len indices)) matched_indexes,
      matched_indexes))).

(** The value part of [generate_dataframe]: the stacked frame, once the
    plot of a single run (line 86) has been written. *)
Definition aligned (self : CausalityClass) (d : list (string * Dataset))
  : result (DataFrame value * list string) :=
  result_bind (stacked_frame self d) (fun built =>
  result_bind
    (if boot_iter self =? 0
     then tp_plot_timeseries (fst built)
            (String.append (save_path self) "timeseries_data_plot")
     else Ok tt)
    (fun _ => Ok built)).

(** The data frame an iteration with offset [i] hands to the search. *)
Definition trimmed_frame (self : CausalityClass) (i : Z)
  : result (DataFrame value) :=
  result_bind (aligned self (D self)) (fun built =>
  result_bind (n_months self) (fun n_mons =>
  result_bind (Np.delete (df_values (fst built)) (Py.range i (i + n_mons)))
    (fun trimmed => Ok (set_values (fst built) trimmed)))).

Definition is_savez (ev : event) : bool :=
  match ev with savez _ _ _ _ _ => true | _ => false end.

(** The data frames handed to causal discovery, in call order. *)
Fixpoint discovery_inputs (evs : list event) : list (DataFrame value) :=
  match evs with
  | [] => []
  | pcmci_run df _ _ :: t => df :: discovery_inputs t
  | _ :: t => discovery_inputs t
  end.

(** The data frames handed to the mediation fit, in call order. *)
Fixpoint estimation_inputs (evs : list event) : list (DataFrame value) :=
  match evs with
  | [] => []
  | mediation_fit df _ _ :: t => df :: estimation_inputs t
  | _ :: t => estimation_inputs t
  end.

(** The rebuilt data frame with the block of [n] rows at offset [i]
    removed. *)
Definition without_block (full : list (list value)) (names : list string)
           (i n : Z) : DataFrame value :=
  mkDataFrame
    (firstn (Z.to_nat i) full ++ skipn (Z.to_nat (i + n)) full)
    (Np.arange (Py.len full)) names.

(** The plot [generate_dataframe] makes when it returns. *)
Definition plot_events (self : CausalityClass)
           (r : result (DataFrame value * list string)) : list event :=
  match r with
  | Ok built =>
      if boot_iter self =? 0
      then [plot_timeseries (fst built)
              (String.append (save_path self) "timeseries_data_plot")]
      else []
  | Raise _ => []
  end.

(** The population the offsets are drawn from:
    [range(0, T, n_mons)]. *)
Definition sample_size (self : CausalityClass) : result (list Z) :=
  result_bind (n_months self) (fun n_mons =>
  result_bind (first_series_length self) (fun t =>
  Py.range_step 0 t n_mons)).

(** The three lists grow together. *)
Definition collected_lengths (acc : collected) (n : nat) : Prop :=
  length (all_val_matrices acc) = n /\
  length (all_ace acc) = n /\
  length (all_acs acc) = n.

(** What a fitted frame of a completed pass satisfied. *)
Definition fitted_with_four (self : CausalityClass) (df : DataFrame value)
  : Prop :=
  exists ps fitted,
    fit_model (LinearMediation df) ps (tau_max self) = Ok fitted /\
    length (get_all_ace fitted) = 4%nat /\
    length (get_all_acs fitted) = 4%nat.

(** [fitted] is the mediation model of the frame [df]: the search ran on
    [df] and the fit ran on [df] with the parents the search returned. *)
Definition fitted_on (self : CausalityClass) (df : DataFrame value)
           (fitted : mediator) : Prop :=
  exists results,
    run_pcmci df (tau_min self) (tau_max self) = Ok results /\
    fit_model (LinearMediation df)
      (fst (return_significant_parents (get_corrected_pvalues (fst results))
              (snd results) (alpha_level self)))
      (tau_max self) = Ok fitted.

Definition is_plot_timeseries (ev : event) : bool :=
  match ev with plot_timeseries _ _ => true | _ => false end.

End Observations.

(** ** A small executable instance of the interface

    Cells are integers, the generator steps its state by a fixed stride, the
    "discovery" keeps the first and the last row, and the "mediator"
    remembers the data frame it was built on. *)

Module Toy.

Definition lcg_next (st : nat) : nat := (st + 7)%nat.

Fixpoint lcg_draw (st : nat) (pop n : nat) : list nat * nat :=
  match n with
  | O => ([], st)
  | S n' =>
      let st' := lcg_next st in
      let rest := lcg_draw st' pop n' in
      ((st' mod pop)%nat :: fst rest, snd rest)
  end.

Definition pcmci (df : DataFrame Z) (tmin tmax : Z)
  : result (list Z * list Z) :=
  match df_values df with
  | [] => Raise ValueError
  | r :: _ => Ok (r, last (df_values df) [])
  end.

Definition external : External :=
  {| value := Z;
     rng_state := nat;
     np_random_seed := Z.to_nat;
     np_random_randint := lcg_draw;
     p_matrix := list Z;
     val_matrix := list Z;
     parents := list Z;
     link_matrix := nat;
     mediator := DataFrame Z * option (list Z);
     run_pcmci := pcmci;
     get_corrected_pvalues := @rev Z;
     return_significant_parents :=
       fun q v alpha => (alpha :: q, List.length v);
     LinearMediation := fun df => (df, None);
     fit_model := fun m ps tau => Ok (fst m, Some ps);
     get_val_matrix := fun m => hd [] (df_values (fst m));
     get_all_ace := fun m => map (fun _ => 0) (df_var_names (fst m));
     get_all_acs := fun m => map (fun _ => 1) (df_var_names (fst m));
     tp_plot_timeseries :=
       fun _ name =>
         if String.prefix "missing/" name then Raise FileNotFoundError
         else Ok tt |}.

Definition ramp (a : Z) (t : nat) : list Z :=
  map (fun k => a + Z.of_nat k) (seq 0 t).

Definition named (k : string) (s : list Z)
  : string * @Dataset external :=
  (k, @mkDataset external [(k, s)]).

(** Four indices of 240 months, supplied in the order X, Y, Z, Q. *)
Definition data4 : list (string * @Dataset external) :=
  [ named "X" (ramp 0 240); named "Y" (ramp 1000 240);
    named "Z" (ramp 2000 240); named "Q" (ramp 3000 240) ].

(** The same four indices supplied in another order. *)
Definition data4_reordered : list (string * @Dataset external) :=
  [ named "Q" (ramp 3000 240); named "Z" (ramp 2000 240);
    named "Y" (ramp 1000 240); named "X" (ramp 0 240) ].

(** Three short indices. *)
Definition data3 : list (string * @Dataset external) :=
  [ named "X" (ramp 0 6); named "Y" (ramp 10 6); named "Z" (ramp 20 6) ].

(** Two indices of different lengths. *)
Definition data_ragged : list (string * @Dataset external) :=
  [ named "X" (ramp 0 6); named "Y" (ramp 10 5) ].

Definition config (months : list Z) (iters : Z) : @Config external :=
  @mkConfig external "out/" 0 3 5 "plots/" months iters.

Definition start : @world external := @init_world external 7%nat.
Definition other_start : @world external :=
  @mkWorld external 99%nat (Some (mkDataFrame [[1]] [0] ["W"%string], None)).

(** The scenario of the specification: four indices, 240 months, blocks
    of 12 months, 5 iterations. *)
Definition self4 : @CausalityClass external :=
  init data4 (config [1; 12] 5).

(** The same data and block with other lags, threshold and paths. *)
Definition other_config : @Config external :=
  @mkConfig external "elsewhere/" 1 2 9 "figures/" [1; 12] 5.

(** Three indices, blocks of 2 months, no iteration. *)
Definition self3_single : @CausalityClass external :=
  init data3 (config [1; 2] 0).

(** The same single run with a plot directory that does not exist. *)
Definition self3_no_directory : @CausalityClass external :=
  init data3 (@mkConfig external "out/" 0 3 5 "missing/" [1; 2] 0).

(** Two mappings with different key sets whose keys join to one string. *)
Definition data_joined : list (string * @Dataset external) :=
  [ named "A_B" (ramp 0 6) ].

Definition data_split : list (string * @Dataset external) :=
  [ named "A" (ramp 0 6); named "B" (ramp 10 6) ].

(** Two indices of different lengths, blocks of 2 months, 2 iterations. *)
Definition self_ragged : @CausalityClass external :=
  init data_ragged (config [1; 2] 2).

(** Three indices, blocks of 2 months, 2 iterations. *)
Definition self3 : @CausalityClass external :=
  init data3 (config [1; 2] 2).

(** The frame and names a successful build returned. *)
Definition built (x : result (DataFrame Z * list string) *
                      @world external * list (@event external))
  : DataFrame Z * list string :=
  match fst (fst x) with
  | Ok b => b
  | Raise _ => (mkDataFrame [] [] [], [])
  end.

Definition drawn4 := generate_random_indices self4 start.
Definition run4 := bootrstapping self4 start.

(** Four indices of two years, blocks of 12 months, 3 iterations. *)
Definition data4_short : list (string * @Dataset external) :=
  [ named "X" (ramp 0 24); named "Y" (ramp 1000 24);
    named "Z" (ramp 2000 24); named "Q" (ramp 3000 24) ].

Definition self4_short : @CausalityClass external :=
  init data4_short (config [1; 12] 3).

Definition run4_short := bootrstapping self4_short start.
Definition first_frame4 : DataFrame Z :=
  hd (mkDataFrame [] [] []) (discovery_inputs (snd run4_short)).

(** Three indices of 6 months with blocks of 4 months: the block that
    starts at month 4 runs past the end. *)
Definition self3_block4 : @CausalityClass external :=
  init data3 (config [1; 4] 2).


(** The two years of [data4_short] supplied in another order, and the
    frame the object of [data4_short] builds from them. *)
Definition data4_short_reordered : list (string * @Dataset external) :=
  [ named "Q" (ramp 3000 24); named "Z" (ramp 2000 24);
    named "Y" (ramp 1000 24); named "X" (ramp 0 24) ].

Definition built4_reordered :=
  generate_dataframe self4_short data4_short_reordered start.

(** Four indices of half a year with blocks of 12 months and one
    iteration: the only block start is month 0, and its block runs past
    the end. *)
Definition data4_half_year : list (string * @Dataset external) :=
  [ named "X" (ramp 0 6); named "Y" (ramp 1000 6);
    named "Z" (ramp 2000 6); named "Q" (ramp 3000 6) ].

Definition self4_half_year : @CausalityClass external :=
  init data4_half_year (config [1; 12] 1).

Definition run4_half_year := bootrstapping self4_half_year start.

(** The same half year with blocks of 4 months and two iterations: the
    block that starts at month 4 runs past the end. *)
Definition self4_block4 : @CausalityClass external :=
  init data4_half_year (config [1; 4] 2).

Definition run4_block4 := bootrstapping self4_block4 start.

(** The bootstrap run and the first pass of three indices. *)
Definition run3 := bootrstapping self3 start.
Definition pass3 :=
  bootstrap_iteration self3 0 (@mkCollected external [] [] []) start.
Definition frame3 : DataFrame Z :=
  hd (mkDataFrame [] [] []) (estimation_inputs (snd pass3)).
Definition fitted3 :=
  match fst (fst (search_and_estimate self3 frame3 start)) with
  | Ok a => a
  | Raise _ => (([], 0%nat), [])
  end.
Definition built3 := generate_dataframe self3 data3 start.
Definition built_ragged := generate_dataframe self_ragged data_ragged start.

End Toy.

(** * Properties *)

(** ** The order on names *)

Definition str_le (x y : string) : Prop := String.leb x y = true.
Definition str_lt (x y : string) : Prop := String.ltb x y = true.

Lemma ascii_compare_refl (a : ascii) : Ascii.compare a a = Eq.
Proof. unfold Ascii.compare. apply N.compare_refl. Qed.

Lemma string_compare_refl (s : string) : String.compare s s = Eq.
Proof.
  induction s as [|a s IH]; simpl; [reflexivity|].
  now rewrite ascii_compare_refl.
Qed.

Lemma string_compare_lt_trans (s1 s2 s3 : string) :
  String.compare s1 s2 = Lt -> String.compare s2 s3 = Lt ->
  String.compare s1 s3 = Lt.
Proof.
  revert s2 s3.
  induction s1 as [|a s1 IH]; intros [|b s2] [|c s3]; simpl;
    try discriminate; auto.
  destruct (Ascii.compare a b) eqn:Hab; try discriminate;
    destruct (Ascii.compare b c) eqn:Hbc; try discriminate; intros H1 H2.
  - apply Ascii.compare_eq_iff in Hab, Hbc. subst.
    rewrite ascii_compare_refl. eauto.
  - apply Ascii.compare_eq_iff in Hab. subst. now rewrite Hbc.
  - apply Ascii.compare_eq_iff in Hbc. subst. now rewrite Hab.
  - unfold Ascii.compare in *.
    rewrite N.compare_lt_iff in *.
    assert (Hac : (N_of_ascii a < N_of_ascii c)%N) by lia.
    apply N.compare_lt_iff in Hac. now rewrite Hac.
Qed.

Lemma str_lt_irrefl (x : string) : ~ str_lt x x.
Proof.
  unfold str_lt, String.ltb. now rewrite string_compare_refl.
Qed.

Lemma str_lt_trans (x y z : string) : str_lt x y -> str_lt y z -> str_lt x z.
Proof.
  unfold str_lt, String.ltb. intros H1 H2.
  destruct (String.compare x y) eqn:Hxy; try discriminate.
  destruct (String.compare y z) eqn:Hyz; try discriminate.
  now rewrite (string_compare_lt_trans _ _ _ Hxy Hyz).
Qed.

Lemma str_le_cases (x y : string) : str_le x y <-> x = y \/ str_lt x y.
Proof.
  unfold str_le, str_lt, String.leb, String.ltb.
  destruct (String.compare x y) eqn:Hxy; split; intros H; auto;
    try discriminate.
  - left. now apply String.compare_eq_iff.
  - destruct H as [->|H]; [|discriminate].
    now rewrite string_compare_refl in Hxy.
Qed.

Lemma str_le_refl (x : string) : str_le x x.
Proof. apply str_le_cases. now left. Qed.

Lemma str_le_trans (x y z : string) : str_le x y -> str_le y z -> str_le x z.
Proof.
  rewrite !str_le_cases. intros [->|H1] [->|H2]; auto.
  right. eapply str_lt_trans; eauto.
Qed.

Lemma str_le_total (x y : string) : str_le x y \/ str_le y x.
Proof. apply String.leb_total. Qed.

Lemma str_lt_not_le (x y : string) : str_lt x y -> ~ str_le y x.
Proof.
  intros H Hle. apply str_le_cases in Hle. destruct Hle as [->|Hlt].
  - now apply str_lt_irrefl in H.
  - apply (str_lt_irrefl (x := x)). eapply str_lt_trans; eauto.
Qed.

(** ** Sorting, [unique] and [intersect1d] *)

Lemma insert_perm (x : string) (l : list string) :
  Permutation (x :: l) (Np.insert x l).
Proof.
  induction l as [|y t IH]; simpl; [reflexivity|].
  destruct (String.leb x y); [reflexivity|].
  rewrite perm_swap. now constructor.
Qed.

Lemma sort_perm (l : list string) : Permutation l (Np.sort l).
Proof.
  induction l as [|x t IH]; simpl; [constructor|].
  rewrite <- insert_perm. now constructor.
Qed.

Lemma insert_sorted (x : string) (l : list string) :
  StronglySorted str_le l -> StronglySorted str_le (Np.insert x l).
Proof.
  induction 1 as [|y t Hs IH Hall]; simpl.
  - repeat constructor.
  - destruct (String.leb x y) eqn:Hxy.
    + constructor; [now constructor|].
      constructor; [exact Hxy|].
      eapply Forall_impl; [|exact Hall].
      intros z Hz. eapply str_le_trans; eauto.
    + constructor; [exact IH|].
      rewrite <- insert_perm. constructor; [|exact Hall].
      destruct (str_le_total x y) as [H|H]; [|exact H].
      unfold str_le in H. congruence.
Qed.

Lemma sort_sorted (l : list string) : StronglySorted str_le (Np.sort l).
Proof.
  induction l as [|x t IH]; simpl; [constructor|].
  now apply insert_sorted.
Qed.

(** On a sorted list, an element below the head does not occur. *)
Lemma sorted_head_min (x y : string) (t : list string) :
  StronglySorted str_le (y :: t) -> str_lt x y -> ~ In x (y :: t).
Proof.
  intros Hs Hlt Hin. inversion Hs as [|? ? Hs' Hall]; subst.
  destruct Hin as [->|Hin].
  - now apply str_lt_irrefl in Hlt.
  - rewrite Forall_forall in Hall. specialize (Hall _ Hin).
    eapply str_lt_not_le; eauto.
Qed.

Lemma run_heads_In (l : list string) (x : string) :
  In x (Np.run_heads l) <-> In x l.
Proof.
  induction l as [|a t IH]; simpl; [tauto|].
  destruct t as [|b t'].
  - simpl. tauto.
  - destruct (String.eqb a b) eqn:Hab.
    + apply String.eqb_eq in Hab. subst. rewrite IH. simpl. tauto.
    + change (In x (a :: Np.run_heads (b :: t')) <-> a = x \/ In x (b :: t')).
      simpl In at 1. rewrite IH. tauto.
Qed.

Lemma run_heads_sorted (l : list string) :
  StronglySorted str_le l -> StronglySorted str_lt (Np.run_heads l).
Proof.
  induction l as [|a t IH]; intros Hs; simpl; [constructor|].
  inversion Hs as [|? ? Hst Hall]; subst.
  destruct t as [|b t'].
  - repeat constructor.
  - destruct (String.eqb a b) eqn:Hab; [now apply IH|].
    apply String.eqb_neq in Hab.
    constructor; [now apply IH|].
    rewrite Forall_forall. intros z Hz. apply (proj1 (run_heads_In _ _)) in Hz.
    assert (Hbz : str_le b z).
    { simpl in Hz. destruct Hz as [->|Hz]; [apply str_le_refl|].
      inversion Hst as [|? ? Hst' Hall']; subst.
      rewrite Forall_forall in Hall'. now apply Hall'. }
    inversion Hall as [|? ? Hab' Hrest]; subst.
    apply str_le_cases in Hab'. destruct Hab' as [->|Hlt]; [congruence|].
    apply str_le_cases in Hbz. destruct Hbz as [->|Hlt']; [exact Hlt|].
    eapply str_lt_trans; eauto.
Qed.

Lemma strictly_sorted_NoDup (l : list string) :
  StronglySorted str_lt l -> NoDup l.
Proof.
  induction 1 as [|a t Hs IH Hall]; constructor; [|exact IH].
  intros Hin. rewrite Forall_forall in Hall.
  exact (str_lt_irrefl (Hall _ Hin)).
Qed.

Lemma unique_In (l : list string) (x : string) :
  In x (Np.unique l) <-> In x l.
Proof.
  unfold Np.unique. rewrite run_heads_In.
  split; apply Permutation_in; [symmetry|]; apply sort_perm.
Qed.

Lemma unique_NoDup (l : list string) : NoDup (Np.unique l).
Proof.
  apply strictly_sorted_NoDup, run_heads_sorted, sort_sorted.
Qed.

Abbreviation occ := (count_occ string_dec).

(** On a sorted array, [adjacent_equal] keeps one copy less of every
    element. *)
Lemma adjacent_equal_count (l : list string) (x : string) :
  StronglySorted str_le l ->
  occ (Np.adjacent_equal l) x = (occ l x - 1)%nat.
Proof.
  induction l as [|a t IH]; intros Hs; [reflexivity|].
  inversion Hs as [|? ? Hst Hall]; subst.
  destruct t as [|b t'].
  - simpl. destruct (string_dec a x); reflexivity.
  - specialize (IH Hst).
    change (Np.adjacent_equal (a :: b :: t')) with
      (if String.eqb a b then a :: Np.adjacent_equal (b :: t')
       else Np.adjacent_equal (b :: t')).
    destruct (String.eqb a b) eqn:Hab.
    + apply String.eqb_eq in Hab. subst b.
      destruct (string_dec a x) as [->|Hne].
      * rewrite !count_occ_cons_eq by reflexivity.
        rewrite IH. rewrite count_occ_cons_eq by reflexivity. lia.
      * rewrite (count_occ_cons_neq _ (Np.adjacent_equal (a :: t')) Hne).
        rewrite (count_occ_cons_neq _ (a :: t') Hne). exact IH.
    + apply String.eqb_neq in Hab.
      destruct (string_dec a x) as [->|Hne].
      * rewrite IH. rewrite (count_occ_cons_eq _ (b :: t') eq_refl).
        assert (Hnot : ~ In x (b :: t')).
        { apply sorted_head_min; [exact Hst|].
          inversion Hall as [|? ? Hxb Hrest]; subst.
          apply str_le_cases in Hxb. destruct Hxb; [congruence|assumption]. }
        apply (count_occ_not_In string_dec) in Hnot. lia.
      * rewrite (count_occ_cons_neq _ (b :: t') Hne). exact IH.
Qed.

Lemma adjacent_equal_incl (l : list string) (x : string) :
  In x (Np.adjacent_equal l) -> In x l.
Proof.
  induction l as [|a t IH]; [auto|].
  destruct t as [|b t']; [simpl; tauto|].
  change (Np.adjacent_equal (a :: b :: t')) with
    (if String.eqb a b then a :: Np.adjacent_equal (b :: t')
     else Np.adjacent_equal (b :: t')).
  destruct (String.eqb a b); intros Hin.
  - destruct Hin as [->|Hin]; [now left|right; auto].
  - right; auto.
Qed.

Lemma adjacent_equal_sorted (l : list string) :
  StronglySorted str_le l -> StronglySorted str_le (Np.adjacent_equal l).
Proof.
  induction l as [|a t IH]; intros Hs; [constructor|].
  inversion Hs as [|? ? Hst Hall]; subst.
  destruct t as [|b t']; [constructor|].
  change (Np.adjacent_equal (a :: b :: t')) with
    (if String.eqb a b then a :: Np.adjacent_equal (b :: t')
     else Np.adjacent_equal (b :: t')).
  destruct (String.eqb a b); [|now apply IH].
  constructor; [now apply IH|].
  rewrite Forall_forall in *. intros z Hz.
  apply Hall. now apply adjacent_equal_incl.
Qed.

Lemma sorted_NoDup_strict (l : list string) :
  StronglySorted str_le l -> NoDup l -> StronglySorted str_lt l.
Proof.
  induction 1 as [|a t Hs IH Hall]; intros Hnd; [constructor|].
  inversion Hnd as [|? ? Hnotin Hnd']; subst.
  constructor; [auto|].
  rewrite Forall_forall in *. intros z Hz.
  specialize (Hall _ Hz). apply str_le_cases in Hall.
  destruct Hall as [->|Hlt]; [contradiction|exact Hlt].
Qed.

Lemma NoDup_occ_le (l : list string) (x : string) :
  NoDup l -> (occ l x <= 1)%nat.
Proof. intros H. now apply (NoDup_count_occ string_dec). Qed.

Lemma intersect1d_count (ar1 ar2 : list string) (x : string) :
  occ (Np.intersect1d ar1 ar2) x =
  (occ (Np.unique ar1) x + occ (Np.unique ar2) x - 1)%nat.
Proof.
  unfold Np.intersect1d.
  rewrite adjacent_equal_count by apply sort_sorted.
  rewrite <- (proj1 (Permutation_count_occ string_dec _ _)
                (sort_perm (Np.unique ar1 ++ Np.unique ar2)) x).
  now rewrite count_occ_app.
Qed.

(** [intersect1d] returns exactly the names present in both arrays. *)
Lemma intersect1d_In (ar1 ar2 : list string) (x : string) :
  In x (Np.intersect1d ar1 ar2) <-> In x ar1 /\ In x ar2.
Proof.
  rewrite <- (unique_In ar1 x), <- (unique_In ar2 x).
  rewrite !(count_occ_In string_dec), intersect1d_count.
  pose proof (NoDup_occ_le x (unique_NoDup ar1)).
  pose proof (NoDup_occ_le x (unique_NoDup ar2)).
  lia.
Qed.

(** ... in strictly increasing order. *)
Lemma intersect1d_sorted (ar1 ar2 : list string) :
  StronglySorted str_lt (Np.intersect1d ar1 ar2).
Proof.
  apply sorted_NoDup_strict.
  - apply adjacent_equal_sorted, sort_sorted.
  - apply (NoDup_count_occ string_dec). intros x.
    rewrite intersect1d_count.
    pose proof (NoDup_occ_le x (unique_NoDup ar1)).
    pose proof (NoDup_occ_le x (unique_NoDup ar2)).
    lia.
Qed.

(** A strictly increasing list is determined by its members. *)
Lemma strictly_sorted_unique (l1 l2 : list string) :
  StronglySorted str_lt l1 -> StronglySorted str_lt l2 ->
  (forall x, In x l1 <-> In x l2) -> l1 = l2.
Proof.
  intros H1. revert l2.
  induction H1 as [|a t1 Hs1 IH Hall1]; intros l2 H2 Hmem.
  - destruct l2 as [|b t2]; [reflexivity|].
    exfalso. apply (proj2 (Hmem b)). now left.
  - destruct H2 as [|b t2 Hs2 Hall2].
    + exfalso. apply (proj1 (Hmem a)). now left.
    + rewrite Forall_forall in Hall1, Hall2.
      assert (Hab : a = b).
      { destruct (proj1 (Hmem a) (or_introl eq_refl)) as [Heq|Hin2];
          [now symmetry|].
        destruct (proj2 (Hmem b) (or_introl eq_refl)) as [Heq|Hin1];
          [exact Heq|].
        exfalso. apply (str_lt_irrefl (x := a)).
        eapply str_lt_trans; [apply Hall1|apply Hall2]; eauto. }
      subst b. f_equal. apply IH; [exact Hs2|].
      intros x. split; intros Hin.
      * destruct (proj1 (Hmem x) (or_intror Hin)) as [Heq|Hin2]; [|exact Hin2].
        subst x. exfalso. exact (str_lt_irrefl (Hall1 _ Hin)).
      * destruct (proj2 (Hmem x) (or_intror Hin)) as [Heq|Hin1]; [|exact Hin1].
        subst x. exfalso. exact (str_lt_irrefl (Hall2 _ Hin)).
Qed.

(** Hence the result depends on the two name sets only, not on the order
    in which either array lists them. *)
Lemma intersect1d_same_sets (a1 a2 b1 b2 : list string) :
  (forall x, In x a1 <-> In x b1) -> (forall x, In x a2 <-> In x b2) ->
  Np.intersect1d a1 a2 = Np.intersect1d b1 b2.
Proof.
  intros H1 H2. apply strictly_sorted_unique; try apply intersect1d_sorted.
  intros x. rewrite !intersect1d_In, H1, H2. tauto.
Qed.

(** ** Stacking, transposing and deleting rows *)

Section ArrayFacts.
Context {A : Type}.

Lemma vstack_ok (rows m : list (list A)) :
  Np.vstack rows = Ok m ->
  m = rows /\ rows <> [] /\
  Forall (fun r => length r = length (hd [] rows)) rows.
Proof.
  unfold Np.vstack. destruct rows as [|r t]; [discriminate|].
  destruct (forallb _ t) eqn:Hall; [|discriminate].
  intros H. injection H as <-. repeat split; [discriminate|].
  constructor; [reflexivity|].
  rewrite forallb_forall in Hall. rewrite Forall_forall.
  intros r' Hin. simpl. now apply Nat.eqb_eq, Hall.
Qed.

Lemma vstack_ragged (rows : list (list A)) (r1 r2 : list A) :
  In r1 rows -> In r2 rows -> length r1 <> length r2 ->
  Np.vstack rows = Raise ValueError.
Proof.
  intros H1 H2 Hne.
  destruct (Np.vstack rows) as [m|e] eqn:Hv.
  - apply vstack_ok in Hv. destruct Hv as (_ & _ & Hall).
    rewrite Forall_forall in Hall.
    rewrite (Hall _ H1), (Hall _ H2) in Hne. congruence.
  - unfold Np.vstack in Hv. destruct rows; [congruence|].
    destruct (forallb _ rows); congruence.
Qed.

Lemma zip_cons_length (c : list A) (rs : list (list A)) :
  length (Np.zip_cons c rs) = Nat.min (length c) (length rs).
Proof.
  revert rs. induction c as [|x c IH]; intros [|r rs]; simpl; auto.
Qed.

Lemma transpose_length (rows : list (list A)) (n : nat) :
  Forall (fun r => length r = n) rows ->
  length (fold_right Np.zip_cons (repeat [] n) rows) = n.
Proof.
  induction 1 as [|r t Hr Hall IH]; simpl.
  - apply repeat_length.
  - rewrite zip_cons_length, IH, Hr. apply Nat.min_id.
Qed.

Lemma zip_cons_head_column (c : list A) (rs : list (list A)) :
  length c = length rs ->
  map (fun row => nth_error row 0) (Np.zip_cons c rs) = map Some c.
Proof.
  revert rs. induction c as [|x c IH]; intros [|r rs]; simpl;
    try discriminate; auto.
  intros H. f_equal. apply IH. congruence.
Qed.

Lemma zip_cons_tail_column (c : list A) (rs : list (list A)) (j : nat) :
  length c = length rs ->
  map (fun row => nth_error row (S j)) (Np.zip_cons c rs) =
  map (fun row => nth_error row j) rs.
Proof.
  revert rs. induction c as [|x c IH]; intros [|r rs]; simpl;
    try discriminate; auto.
  intros H. f_equal. apply IH. congruence.
Qed.

(** Column [j] of the transposed array is the [j]-th stacked series. *)
Lemma transpose_column (rows : list (list A)) (n j : nat) (c : list A) :
  Forall (fun r => length r = n) rows ->
  nth_error rows j = Some c ->
  map (fun row => nth_error row j)
      (fold_right Np.zip_cons (repeat [] n) rows) = map Some c.
Proof.
  intros Hall. revert j.
  induction Hall as [|r t Hr Hall IH]; intros j Hj.
  - destruct j; discriminate.
  - simpl. destruct j as [|j]; simpl in Hj.
    + injection Hj as ->. apply zip_cons_head_column.
      now rewrite transpose_length.
    + rewrite zip_cons_tail_column by now rewrite transpose_length.
      now apply IH.
Qed.

(** Rows at positions [j], [j+1], ... of [arr]: dropping the positions
    [b, b+m) that start at or before [j] skips the first [b+m-j] rows. *)
Lemma drop_rows_behind (arr : list A) (b m j : nat) :
  (b <= j)%nat ->
  Np.drop_rows (seq b m) j arr = skipn (b + m - j) arr.
Proof.
  revert j. induction arr as [|r t IH]; intros j Hbj; simpl.
  - now rewrite skipn_nil.
  - destruct (existsb (Nat.eqb j) (seq b m)) eqn:Hex.
    + apply existsb_exists in Hex. destruct Hex as (k & Hin & Hk).
      apply Nat.eqb_eq in Hk. subst k. apply in_seq in Hin.
      rewrite IH by lia.
      replace (b + m - j)%nat with (S (b + m - S j)) by lia. reflexivity.
    + assert (Hout : (b + m <= j)%nat).
      { destruct (le_lt_dec (b + m) j) as [H|H]; [exact H|].
        assert (Hin : In j (seq b m)) by (apply in_seq; lia).
        assert (Hex' : existsb (Nat.eqb j) (seq b m) = true).
        { apply existsb_exists. exists j. split; [exact Hin|].
          apply Nat.eqb_refl. }
        congruence. }
      rewrite IH by lia.
      replace (b + m - j)%nat with 0%nat by lia.
      replace (b + m - S j)%nat with 0%nat by lia. reflexivity.
Qed.

(** Dropping the positions [j+a, j+a+m) keeps the first [a] rows and
    what follows the block. *)
Lemma drop_rows_block (arr : list A) (a m j : nat) :
  Np.drop_rows (seq (j + a) m) j arr = firstn a arr ++ skipn (a + m) arr.
Proof.
  revert arr j. induction a as [|a IH]; intros arr j.
  - rewrite Nat.add_0_r, drop_rows_behind by lia.
    simpl. f_equal. lia.
  - destruct arr as [|r t]; [reflexivity|]. simpl.
    destruct (existsb (Nat.eqb j) (seq (j + S a) m)) eqn:Hex.
    + apply existsb_exists in Hex. destruct Hex as (k & Hin & Hk).
      apply Nat.eqb_eq in Hk. subst k. apply in_seq in Hin. lia.
    + f_equal. replace (j + S a)%nat with (S j + a)%nat by lia. apply IH.
Qed.

Lemma range_normalized (n i k : Z) :
  0 <= i -> 0 <= k ->
  map (Np.normalize_index n) (Py.range i (i + k)) =
  seq (Z.to_nat i) (Z.to_nat k).
Proof.
  intros Hi Hk. unfold Py.range.
  replace (i + k - i) with k by lia.
  rewrite map_map.
  assert (Hgen : forall m s,
             map (fun x => Np.normalize_index n (i + Z.of_nat x)) (seq s m) =
             seq (Z.to_nat i + s) m).
  { induction m as [|m IH]; intros s; simpl; [reflexivity|].
    f_equal.
    - unfold Np.normalize_index.
      destruct (i + Z.of_nat s <? 0) eqn:Hneg; lia.
    - rewrite IH. f_equal. lia. }
  rewrite Hgen. f_equal. lia.
Qed.

(** [np.delete] of a non-empty block [i, i+k) succeeds exactly when the
    block lies inside the array, and then removes those [k] rows. *)
Lemma delete_block (arr out : list A) (i k : Z) :
  0 <= i -> 0 < k ->
  Np.delete arr (Py.range i (i + k)) = Ok out ->
  i + k <= Py.len arr /\
  out = firstn (Z.to_nat i) arr ++ skipn (Z.to_nat (i + k)) arr /\
  Py.len out = Py.len arr - k.
Proof.
  intros Hi Hk. unfold Np.delete.
  destruct (forallb _ (Py.range i (i + k))) eqn:Hall; [|discriminate].
  intros H. injection H as <-.
  assert (Hin : i + k <= Py.len arr).
  { rewrite forallb_forall in Hall.
    specialize (Hall (i + k - 1)).
    assert (Hmem : In (i + k - 1) (Py.range i (i + k))).
    { unfold Py.range. apply in_map_iff.
      exists (Z.to_nat (k - 1)). split; [lia|]. apply in_seq. lia. }
    specialize (Hall Hmem). lia. }
  rewrite range_normalized by lia.
  pose proof (drop_rows_block arr (Z.to_nat i) (Z.to_nat k) 0) as Hdrop.
  simpl in Hdrop. rewrite Hdrop.
  replace (Z.to_nat i + Z.to_nat k)%nat with (Z.to_nat (i + k)) by lia.
  repeat split; [exact Hin|].
  unfold Py.len in *. rewrite length_app, length_firstn, length_skipn. lia.
Qed.

End ArrayFacts.

(** ** The state monad: inversion and two-run rules *)

Section MonadFacts.
Context {E : External}.
Local Open Scope py_scope.

Lemma bind_inv {A B} (c : M A) (k : A -> M B) w r w' es :
  bind c k w = (r, w', es) ->
  (exists e, c w = (Raise e, w', es) /\ r = Raise e) \/
  (exists a w1 es1 es2,
      c w = (Ok a, w1, es1) /\ k a w1 = (r, w', es2) /\ es = es1 ++ es2).
Proof.
  unfold bind. destruct (c w) as [[[a|e] w1] es1].
  - destruct (k a w1) as [[r2 w2] es2] eqn:Hk. intros H.
    injection H as <- <- <-. right. now exists a, w1, es1, es2.
  - intros H. injection H as <- <- <-. left. now exists e.
Qed.

Lemma related_ret {A} (P : world -> world -> Prop) (a : A) :
  related P (ret a) P.
Proof. intros w1 w2 H. split; [reflexivity|]. intros; exact H. Qed.

Lemma related_lift {A} (P : world -> world -> Prop) (r : result A) :
  related P (lift r) P.
Proof. intros w1 w2 H. split; [reflexivity|]. intros; exact H. Qed.

Lemma related_emit (P : world -> world -> Prop) (ev : event) :
  related P (emit ev) P.
Proof. intros w1 w2 H. split; [reflexivity|]. intros; exact H. Qed.

Lemma related_bind {A B} (P Q R : world -> world -> Prop)
      (c : M A) (k : A -> M B) :
  related P c Q -> (forall a, related Q (k a) R) -> related P (bind c k) R.
Proof.
  intros Hc Hk w1 w2 HP. destruct (Hc w1 w2 HP) as [Hout HQ].
  unfold bind, outcome, final_world in *.
  destruct (c w1) as [[r1 v1] es1], (c w2) as [[r2 v2] es2].
  simpl in Hout, HQ. injection Hout as -> ->.
  destruct r2 as [a|e]; [|now split].
  specialize (HQ a eq_refl).
  destruct (Hk a v1 v2 HQ) as [Hout' HR].
  destruct (k a v1) as [[r1' v1'] es1'], (k a v2) as [[r2' v2'] es2'].
  simpl in *. injection Hout' as -> ->. split; [reflexivity|exact HR].
Qed.

Lemma related_weaken {A} (P P' Q Q' : world -> world -> Prop) (c : M A) :
  related P c Q ->
  (forall w1 w2, P' w1 w2 -> P w1 w2) ->
  (forall w1 w2, Q w1 w2 -> Q' w1 w2) ->
  related P' c Q'.
Proof.
  intros Hc HP HQ w1 w2 H. destruct (Hc w1 w2 (HP _ _ H)) as [Hout Hfin].
  split; [exact Hout|]. intros a Ha. apply HQ. now apply (Hfin a).
Qed.

Lemma agree_weaken (r m r' m' : bool) (w1 w2 : world) :
  (r' = true -> r = true) -> (m' = true -> m = true) ->
  agree r m w1 w2 -> agree r' m' w1 w2.
Proof. unfold agree. intros Hr Hm [H1 H2]. split; auto. Qed.

Lemma related_put_rng (r m : bool) (st : rng_state) :
  related (agree r m) (put_rng st) (agree true m).
Proof.
  intros w1 w2 [_ Hm]. split; [reflexivity|]. intros _ _.
  split; [reflexivity|exact Hm].
Qed.

Lemma related_get_rng (m : bool) :
  related (agree true m) get_rng (agree true m).
Proof.
  intros w1 w2 H. pose proof (proj1 H eq_refl) as Hr.
  unfold get_rng, outcome. simpl. rewrite Hr. split; [reflexivity|].
  intros; exact H.
Qed.

Lemma related_put_linear_mediator (r m : bool) (x : mediator) :
  related (agree r m) (put_linear_mediator x) (agree r true).
Proof.
  intros w1 w2 [Hr _]. split; [reflexivity|]. intros _ _.
  split; [exact Hr|reflexivity].
Qed.

Lemma related_get_linear_mediator (r : bool) :
  related (agree r true) get_linear_mediator (agree r true).
Proof.
  intros w1 w2 H. pose proof (proj2 H eq_refl) as Hm.
  unfold get_linear_mediator, outcome, final_world. rewrite Hm.
  destruct (linear_mediator w2); simpl; (split; [reflexivity|]);
    intros; exact H.
Qed.

End MonadFacts.

(** Splits a call into its first step and its continuation. *)
Ltac related_step :=
  eapply related_bind; [ | intros ? ].

(** ** Two runs of each method *)

Section TwoRuns.
Context {E : External}.
Local Open Scope py_scope.

Lemma related_np_random_choice (m : bool) (a : list Z) (size : Z) :
  related (agree true m) (np_random_choice a size) (agree true m).
Proof.
  unfold np_random_choice.
  destruct (Nat.eqb (length a) 0 && negb (size =? 0))%bool;
    [apply related_lift|].
  destruct (size <? 0); [apply related_lift|].
  related_step; [apply related_get_rng|].
  related_step; [apply related_put_rng|].
  apply related_ret.
Qed.

(** The seed is set first, so the offsets do not depend on the state the
    call starts from. *)
Lemma related_generate_random_indices (r m : bool) (self : CausalityClass) :
  related (agree r m) (generate_random_indices self) (agree true m).
Proof.
  unfold generate_random_indices.
  related_step; [apply related_put_rng|].
  related_step; [apply related_lift|].
  related_step; [apply related_lift|].
  related_step; [apply related_lift|].
  apply related_np_random_choice.
Qed.

Lemma related_generate_dataframe (r m : bool) (self : CausalityClass)
      (d : list (string * Dataset)) :
  related (agree r m) (generate_dataframe self d) (agree r m).
Proof.
  unfold generate_dataframe.
  related_step; [apply related_lift|].
  related_step; [apply related_lift|].
  related_step; [|apply related_ret].
  destruct (boot_iter self =? 0); [|apply related_ret].
  unfold plot_time_series.
  related_step; [apply related_lift|apply related_emit].
Qed.

Lemma related_construct_causal_graph (r m : bool) (self : CausalityClass)
      (df : DataFrame value) :
  related (agree r m) (construct_causal_graph self df) (agree r m).
Proof.
  unfold construct_causal_graph.
  related_step; [apply related_emit|].
  related_step; [apply related_lift|].
  apply related_ret.
Qed.

(** The mediator field is overwritten before it is read. *)
Lemma related_linear_estimator (r m : bool) (self : CausalityClass)
      (sp : parents * link_matrix) (df : DataFrame value) :
  related (agree r m) (linear_estimator self sp df) (agree r true).
Proof.
  unfold linear_estimator.
  related_step; [apply related_put_linear_mediator|].
  related_step; [apply related_get_linear_mediator|].
  related_step; [apply related_emit|].
  related_step; [apply related_lift|].
  related_step; [apply related_put_linear_mediator|].
  related_step; [apply related_get_linear_mediator|].
  apply related_ret.
Qed.

Lemma related_search_and_estimate (r m : bool) (self : CausalityClass)
      (df : DataFrame value) :
  related (agree r m) (search_and_estimate self df) (agree r true).
Proof.
  unfold search_and_estimate.
  related_step; [apply related_construct_causal_graph|].
  related_step; [apply related_linear_estimator|].
  apply related_ret.
Qed.

Lemma related_bootstrap_iteration (r m : bool) (self : CausalityClass)
      (i : Z) (acc : collected) :
  related (agree r m) (bootstrap_iteration self i acc) (agree r true).
Proof.
  unfold bootstrap_iteration, get_links_beta_coeffs.
  related_step; [apply related_generate_dataframe|].
  related_step; [apply related_lift|].
  related_step; [apply related_lift|].
  related_step; [apply related_construct_causal_graph|].
  related_step; [apply related_linear_estimator|].
  related_step; [apply related_get_linear_mediator|].
  related_step.
  { related_step; [apply related_get_linear_mediator|apply related_ret]. }
  related_step; [apply related_lift|].
  related_step; [apply related_lift|].
  apply related_ret.
Qed.

Lemma related_bootstrap_loop (r : bool) (self : CausalityClass)
      (rnd_inds : list Z) :
  forall (m : bool) (acc : collected),
    related (agree r m) (bootstrap_loop self rnd_inds acc) (agree r false).
Proof.
  induction rnd_inds as [|i rest IH]; intros m acc; simpl.
  - eapply related_weaken; [apply related_ret| |]; intros w1 w2 H;
      [exact H|].
    eapply agree_weaken; [| |exact H]; auto; discriminate.
  - related_step; [apply related_bootstrap_iteration|]. apply IH.
Qed.

Lemma related_bootrstapping (r m : bool) (self : CausalityClass) :
  related (agree r m) (bootrstapping self) (agree true false).
Proof.
  unfold bootrstapping.
  related_step; [apply related_generate_random_indices|].
  related_step; [apply related_bootstrap_loop|].
  apply related_emit.
Qed.

Lemma agree_nothing (w1 w2 : world) : agree false false w1 w2.
Proof. split; discriminate. Qed.

End TwoRuns.

(** ** What each method computes *)

Section Runs.
Context {E : External}.
Local Open Scope py_scope.

(** [generate_dataframe] leaves the state alone; its only event is the
    time-series plot of a single run. *)
Lemma generate_dataframe_eq (self : CausalityClass)
      (d : list (string * Dataset)) (w : world) :
  generate_dataframe self d w =
  (aligned self d, w, plot_events self (aligned self d)).
Proof.
  unfold generate_dataframe, aligned, stacked_frame, plot_events,
    plot_time_series, bind, lift, ret, emit.
  destruct (result_map_list _ _) as [dataset|e]; simpl; [|reflexivity].
  destruct (Np.vstack dataset) as [stacked|e]; simpl; [|reflexivity].
  destruct (boot_iter self =? 0); [|reflexivity].
  destruct (tp_plot_timeseries _ _) as [[]|e]; reflexivity.
Qed.

Lemma construct_causal_graph_eq (self : CausalityClass)
      (df : DataFrame value) (w : world) :
  construct_causal_graph self df w =
  (result_bind (run_pcmci df (tau_min self) (tau_max self)) (fun results =>
     Ok (return_significant_parents (get_corrected_pvalues (fst results))
           (snd results) (alpha_level self))),
   w, [pcmci_run df (tau_min self) (tau_max self)]).
Proof.
  unfold construct_causal_graph, bind, lift, ret, emit.
  destruct (run_pcmci df (tau_min self) (tau_max self)); reflexivity.
Qed.

Lemma linear_estimator_eq (self : CausalityClass)
      (sp : parents * link_matrix) (df : DataFrame value) (w : world) :
  linear_estimator self sp df w =
  match fit_model (LinearMediation df) (fst sp) (tau_max self) with
  | Ok fitted =>
      (Ok (get_val_matrix fitted, snd sp), mkWorld (rng w) (Some fitted),
       [mediation_fit df (fst sp) (tau_max self)])
  | Raise e =>
      (Raise e, mkWorld (rng w) (Some (LinearMediation df)),
       [mediation_fit df (fst sp) (tau_max self)])
  end.
Proof.
  unfold linear_estimator, bind, lift, ret, emit, put_linear_mediator,
    get_linear_mediator.
  simpl. destruct (fit_model _ _ _); reflexivity.
Qed.

Lemma search_and_estimate_eq (self : CausalityClass) (df : DataFrame value)
      (w : world) :
  search_and_estimate self df w =
  match run_pcmci df (tau_min self) (tau_max self) with
  | Raise e => (Raise e, w, [pcmci_run df (tau_min self) (tau_max self)])
  | Ok results =>
      let sp := return_significant_parents
                  (get_corrected_pvalues (fst results)) (snd results)
                  (alpha_level self) in
      match fit_model (LinearMediation df) (fst sp) (tau_max self) with
      | Ok fitted =>
          (Ok (sp, get_val_matrix fitted), mkWorld (rng w) (Some fitted),
           [pcmci_run df (tau_min self) (tau_max self);
            mediation_fit df (fst sp) (tau_max self)])
      | Raise e =>
          (Raise e, mkWorld (rng w) (Some (LinearMediation df)),
           [pcmci_run df (tau_min self) (tau_max self);
            mediation_fit df (fst sp) (tau_max self)])
      end
  end.
Proof.
  unfold search_and_estimate, bind. rewrite construct_causal_graph_eq.
  destruct (run_pcmci _ _ _) as [results|e]; simpl; [|reflexivity].
  rewrite linear_estimator_eq.
  destruct (fit_model _ _ _); reflexivity.
Qed.

Lemma generate_random_indices_events (self : CausalityClass) (w : world) :
  snd (generate_random_indices self w) = [].
Proof.
  unfold generate_random_indices, np_random_choice, bind, lift, ret,
    put_rng, get_rng. simpl.
  destruct (n_months self) as [n|]; simpl; [|reflexivity].
  destruct (first_series_length self) as [t|]; simpl; [|reflexivity].
  destruct (Py.range_step 0 _ _) as [a|]; simpl; [|reflexivity].
  destruct (Nat.eqb (length a) 0 && negb (boot_iter self =? 0))%bool;
    [reflexivity|].
  destruct (boot_iter self <? 0); reflexivity.
Qed.

Lemma generate_random_indices_ok (self : CausalityClass) (w w' : world)
      (inds : list Z) (evs : list event) :
  generate_random_indices self w = (Ok inds, w', evs) ->
  exists a,
    sample_size self = Ok a /\
    0 <= boot_iter self /\
    (a <> [] \/ boot_iter self = 0) /\
    inds = map (fun j => nth j a 0)
               (fst (np_random_randint (np_random_seed 113) (length a)
                       (Z.to_nat (boot_iter self)))).
Proof.
  unfold generate_random_indices, sample_size, np_random_choice, bind,
    lift, ret, put_rng, get_rng. simpl.
  destruct (n_months self) as [n|]; simpl; [|discriminate].
  destruct (first_series_length self) as [t|]; simpl; [|discriminate].
  destruct (Py.range_step 0 _ _) as [a|]; simpl; [|discriminate].
  destruct (Nat.eqb (length a) 0 && negb (boot_iter self =? 0))%bool eqn:Hemp;
    [discriminate|].
  destruct (boot_iter self <? 0) eqn:Hneg; [discriminate|].
  simpl. intros H. injection H as <- _ _.
  exists a. repeat split; [lia| ].
  apply andb_false_iff in Hemp. destruct Hemp as [Hlen|Hz].
  - left. intros ->. discriminate.
  - right. apply negb_false_iff in Hz. lia.
Qed.

(** One pass of the loop body.  Nothing is saved; the search sees the
    frame [trimmed_frame self i] or is not reached; and when the pass
    returns, a model was fitted on that frame, its results were appended,
    and both metric arrays had four entries. *)
Lemma bootstrap_iteration_spec (self : CausalityClass) (i : Z)
      (acc : collected) (w : world) :
  exists r w' evs,
    bootstrap_iteration self i acc w = (r, w', evs) /\
    existsb is_savez evs = false /\
    match trimmed_frame self i with
    | Raise e =>
        r = Raise e /\ discovery_inputs evs = [] /\ estimation_inputs evs = []
    | Ok df =>
        discovery_inputs evs = [df] /\
        (estimation_inputs evs = [] \/ estimation_inputs evs = [df]) /\
        forall acc', r = Ok acc' ->
          estimation_inputs evs = [df] /\
          exists ps fitted,
            fit_model (LinearMediation df) ps (tau_max self) = Ok fitted /\
            length (get_all_ace fitted) = 4%nat /\
            length (get_all_acs fitted) = 4%nat /\
            acc' = mkCollected
                     (all_val_matrices acc ++ [get_val_matrix fitted])
                     (all_ace acc ++ [get_all_ace fitted])
                     (all_acs acc ++ [get_all_acs fitted])
    end.
Proof.
  unfold bootstrap_iteration, trimmed_frame, get_links_beta_coeffs.
  unfold bind at 1. rewrite generate_dataframe_eq.
  destruct (aligned self (D self)) as [built|e]; cbv beta iota;
    [|eexists _, _, _; repeat split; reflexivity].
  assert (Hplot : existsb is_savez (plot_events self (Ok built)) = false
                  /\ discovery_inputs (plot_events self (Ok built)) = []
                  /\ estimation_inputs (plot_events self (Ok built)) = []).
  { unfold plot_events. destruct (boot_iter self =? 0); repeat split. }
  destruct Hplot as (Hp1 & Hp2 & Hp3).
  generalize dependent (plot_events self (Ok built)). intros pe Hp1 Hp2 Hp3.
  unfold bind at 1, lift at 1.
  destruct (n_months self) as [n_mons|e]; simpl;
    [|eexists _, _, _; split; [reflexivity|];
      rewrite app_nil_r; repeat split; auto].
  unfold bind at 1, lift at 1.
  destruct (Np.delete (df_values (fst built)) (Py.range i (i + n_mons)))
    as [trimmed|e]; simpl;
    [|eexists _, _, _; split; [reflexivity|];
      rewrite app_nil_r; repeat split; auto].
  unfold bind at 1. rewrite construct_causal_graph_eq.
  destruct (run_pcmci _ _ _) as [results|e]; simpl.
  2:{ eexists _, _, _; split; [reflexivity|].
      rewrite existsb_app, Hp1. simpl. split; [reflexivity|].
      assert (Hd : forall l df t1 t2,
                 discovery_inputs l = [] ->
                 discovery_inputs (l ++ [pcmci_run df t1 t2]) = [df]).
      { induction l as [|[] l IH]; simpl; intros; try discriminate; auto. }
      assert (He : forall l df t1 t2,
                 estimation_inputs l = [] ->
                 estimation_inputs (l ++ [pcmci_run df t1 t2]) = []).
      { induction l as [|[] l IH]; simpl; intros; try discriminate; auto. }
      rewrite Hd, He by assumption.
      repeat split; auto; congruence. }
  unfold bind at 1. rewrite linear_estimator_eq. simpl.
  assert (Hd : forall l l',
             discovery_inputs (l ++ l') =
             discovery_inputs l ++ discovery_inputs l').
  { induction l as [|[] l IH]; simpl; intros; auto. now rewrite IH. }
  assert (He : forall l l',
             estimation_inputs (l ++ l') =
             estimation_inputs l ++ estimation_inputs l').
  { induction l as [|[] l IH]; simpl; intros; auto. now rewrite IH. }
  destruct (fit_model _ _ _) as [fitted|e] eqn:Hfit; simpl.
  2:{ eexists _, _, _; split; [reflexivity|].
      rewrite existsb_app, Hp1, Hd, He, Hp2, Hp3. simpl.
      repeat split; auto; congruence. }
  unfold bind, lift, ret, get_linear_mediator, Py.format4. simpl.
  destruct (Nat.eqb (length (get_all_ace fitted)) 4) eqn:Hace; simpl.
  2:{ eexists _, _, _; split; [reflexivity|].
      rewrite existsb_app, Hp1, Hd, He, Hp2, Hp3. simpl.
      repeat split; auto; congruence. }
  destruct (Nat.eqb (length (get_all_acs fitted)) 4) eqn:Hacs; simpl.
  2:{ eexists _, _, _; split; [reflexivity|].
      rewrite existsb_app, Hp1, Hd, He, Hp2, Hp3. simpl.
      repeat split; auto; congruence. }
  eexists _, _, _; split; [reflexivity|].
  rewrite existsb_app, Hp1, Hd, He, Hp2, Hp3. simpl.
  split; [reflexivity|]. split; [reflexivity|]. split; [now right|].
  intros acc' Hacc. injection Hacc as <-. split; [reflexivity|].
  eexists _, fitted. split; [exact Hfit|].
  apply Nat.eqb_eq in Hace, Hacs. auto.
Qed.

End Runs.

Section Loop.
Context {E : External}.
Local Open Scope py_scope.

Lemma discovery_inputs_app (l l' : list event) :
  discovery_inputs (l ++ l') = discovery_inputs l ++ discovery_inputs l'.
Proof. induction l as [|[] l IH]; simpl; auto. now rewrite IH. Qed.

Lemma estimation_inputs_app (l l' : list event) :
  estimation_inputs (l ++ l') = estimation_inputs l ++ estimation_inputs l'.
Proof. induction l as [|[] l IH]; simpl; auto. now rewrite IH. Qed.

Lemma discovery_inputs_In (evs : list event) (df : DataFrame value) :
  In df (discovery_inputs evs) <-> exists t1 t2, In (pcmci_run df t1 t2) evs.
Proof.
  induction evs as [|ev evs IH]; simpl.
  - split; [tauto|]. intros (? & ? & []).
  - destruct ev; simpl; rewrite IH; split;
      try (intros (t1 & t2 & H); exists t1, t2; now right);
      try (intros (t1 & t2 & [H|H]); [discriminate|now exists t1, t2]).
    + intros [->|(t1 & t2 & H)]; [exists tmin, tmax; now left|].
      exists t1, t2. now right.
    + intros (t1 & t2 & [H|H]); [injection H as -> _ _; now left|].
      right. now exists t1, t2.
Qed.

Lemma estimation_inputs_In (evs : list event) (df : DataFrame value) :
  In df (estimation_inputs evs) <->
  exists ps t, In (mediation_fit df ps t) evs.
Proof.
  induction evs as [|ev evs IH]; simpl.
  - split; [tauto|]. intros (? & ? & []).
  - destruct ev; simpl; rewrite IH; split;
      try (intros (t1 & t2 & H); exists t1, t2; now right);
      try (intros (t1 & t2 & [H|H]); [discriminate|now exists t1, t2]).
    + intros [->|(t1 & t2 & H)]; [exists ps, tmax; now left|].
      exists t1, t2. now right.
    + intros (t1 & t2 & [H|H]); [injection H as -> _ _; now left|].
      right. now exists t1, t2.
Qed.

(** The whole loop: nothing is saved inside it; the frames searched are
    those of the first [k] offsets, in order; and when the loop returns,
    every offset had its pass, each pass fitted its frame, and the three
    lists grew by one entry per offset. *)
Lemma bootstrap_loop_spec (self : CausalityClass) (rnd_inds : list Z) :
  forall acc w r w' evs n,
    bootstrap_loop self rnd_inds acc w = (r, w', evs) ->
    collected_lengths acc n ->
    existsb is_savez evs = false /\
    exists k,
      (k <= length rnd_inds)%nat /\
      Forall2 (fun i df => trimmed_frame self i = Ok df)
              (firstn k rnd_inds) (discovery_inputs evs) /\
      (forall df, In df (estimation_inputs evs) ->
                  In df (discovery_inputs evs)) /\
      (forall acc', r = Ok acc' ->
         k = length rnd_inds /\
         collected_lengths acc' (n + length rnd_inds) /\
         estimation_inputs evs = discovery_inputs evs /\
         Forall (fitted_with_four self) (discovery_inputs evs)).
Proof.
  induction rnd_inds as [|i rest IH]; intros acc w r w' evs n Hrun Hlen.
  - simpl in Hrun. unfold ret in Hrun. injection Hrun as <- <- <-.
    split; [reflexivity|]. exists 0%nat. simpl.
    split; [lia|]. split; [constructor|]. split; [tauto|].
    intros acc' H. injection H as <-. rewrite Nat.add_0_r.
    repeat split; try apply Hlen. constructor.
  - simpl in Hrun.
    destruct (bootstrap_iteration_spec self i acc w)
      as (r0 & w0 & evs0 & Hbody & Hsave0 & Hspec).
    apply bind_inv in Hrun.
    destruct Hrun as [(e & Hraise & ->)
                     |(acc1 & w1 & es1 & es2 & Hok & Hrest & ->)].
    + rewrite Hbody in Hraise. injection Hraise as -> -> ->.
      split; [exact Hsave0|].
      destruct (trimmed_frame self i) as [df|e'] eqn:Htrim.
      * destruct Hspec as (Hd & He & _). exists 1%nat. simpl.
        rewrite Hd. repeat split; try lia; try congruence.
        -- repeat constructor. exact Htrim.
        -- intros df' Hin. destruct He as [He|He]; rewrite He in Hin;
             [destruct Hin|exact Hin].
      * destruct Hspec as (_ & Hd & He). exists 0%nat. simpl.
        rewrite Hd, He. repeat split; try lia; try congruence; auto.
    + rewrite Hbody in Hok. injection Hok as -> -> ->.
      destruct (trimmed_frame self i) as [df|e'] eqn:Htrim;
        [|destruct Hspec as (Hspec & _); discriminate].
      destruct Hspec as (Hd & _ & Hdone).
      destruct (Hdone acc1 eq_refl) as (He & ps & fitted & Hfit & Hace & Hacs & ->).
      assert (Hlen1 : collected_lengths
                        (mkCollected
                           (all_val_matrices acc ++ [get_val_matrix fitted])
                           (all_ace acc ++ [get_all_ace fitted])
                           (all_acs acc ++ [get_all_acs fitted])) (S n)).
      { destruct Hlen as (H1 & H2 & H3). unfold collected_lengths. simpl.
        rewrite !length_app, H1, H2, H3. simpl. lia. }
      destruct (IH _ _ _ _ _ _ Hrest Hlen1) as (Hsave & k & Hk & Hfr & Hsub & Hfin).
      split; [rewrite existsb_app, Hsave0, Hsave; reflexivity|].
      exists (S k). simpl.
      rewrite discovery_inputs_app, estimation_inputs_app, Hd, He. simpl.
      repeat split; try lia.
      * constructor; [exact Htrim|exact Hfr].
      * intros df' [->|Hin]; [now left|right; auto].
      * destruct (Hfin _ H) as (-> & _). reflexivity.
      * destruct (Hfin _ H) as (_ & (H1 & H2 & H3) & _).
        rewrite H1. lia.
      * destruct (Hfin _ H) as (_ & (H1 & H2 & H3) & _).
        rewrite H2. lia.
      * destruct (Hfin _ H) as (_ & (H1 & H2 & H3) & _).
        rewrite H3. lia.
      * destruct (Hfin _ H) as (_ & _ & -> & _). reflexivity.
      * destruct (Hfin _ H) as (_ & _ & _ & Hall).
        constructor; [|exact Hall]. now exists ps, fitted.
Qed.

(** The three stages of [bootrstapping]. *)
Lemma bootrstapping_stages (self : CausalityClass) (w w' : world)
      (r : result unit) (evs : list event) :
  bootrstapping self w = (r, w', evs) ->
  (exists e w0, generate_random_indices self w = (Raise e, w0, []) /\
                r = Raise e /\ evs = []) \/
  (exists inds w0 r1 w1 es1,
      generate_random_indices self w = (Ok inds, w0, []) /\
      bootstrap_loop self inds (mkCollected [] [] []) w0 = (r1, w1, es1) /\
      ((exists e, r1 = Raise e /\ r = Raise e /\ evs = es1) \/
       (exists acc, r1 = Ok acc /\ r = Ok tt /\
                    evs = es1 ++ [savez (archive_name self) inds
                                    (all_val_matrices acc) (all_ace acc)
                                    (all_acs acc)]))).
Proof.
  unfold bootrstapping. intros Hrun.
  pose proof (generate_random_indices_events self w) as Hnil.
  apply bind_inv in Hrun.
  destruct Hrun as [(e & Hgen & ->)
                   |(inds & w0 & es0 & es & Hgen & Hrun & ->)];
    rewrite Hgen in Hnil; simpl in Hnil; subst.
  - left. now exists e, w'.
  - right. exists inds, w0. simpl.
    apply bind_inv in Hrun.
    destruct Hrun as [(e & Hloop & ->)
                     |(acc & w1 & es1 & es2 & Hloop & Hsave & ->)].
    + exists (Raise e), w', es. repeat split; auto. left. now exists e.
    + unfold emit in Hsave. injection Hsave as <- <- <-.
      exists (Ok acc), w1, es1. repeat split; auto. right. now exists acc.
Qed.

(** Without a rebuilt frame no pass reaches the search. *)
Lemma no_frame_no_search (self : CausalityClass) (w w' : world)
      (r : result unit) (evs : list event) (e : exn) :
  aligned self (D self) = Raise e ->
  bootrstapping self w = (r, w', evs) ->
  discovery_inputs evs = [] /\ estimation_inputs evs = [].
Proof.
  intros Hal Hrun. apply bootrstapping_stages in Hrun.
  destruct Hrun as [(e' & w0 & Hgen & -> & ->)
                   |(inds & w0 & r1 & w1 & es1 & Hgen & Hloop & Hend)];
    [split; reflexivity|].
  assert (Hzero : collected_lengths (mkCollected [] [] []) 0)
    by (repeat split).
  destruct (@bootstrap_loop_spec self inds _ _ _ _ _ _ Hloop Hzero)
    as (_ & k & _ & Hfr & Hsub & _).
  assert (Hd : discovery_inputs es1 = []).
  { destruct (discovery_inputs es1) as [|df t]; [reflexivity|].
    inversion Hfr as [|i df' l l' Htrim Hrest Hl Hl']; subst.
    unfold trimmed_frame in Htrim. rewrite Hal in Htrim. discriminate. }
  assert (He : estimation_inputs es1 = []).
  { destruct (estimation_inputs es1) as [|df t]; [reflexivity|].
    specialize (Hsub df (or_introl eq_refl)). rewrite Hd in Hsub.
    destruct Hsub. }
  destruct Hend as [(e' & _ & _ & ->)|(acc & _ & _ & ->)].
  - now split.
  - rewrite discovery_inputs_app, estimation_inputs_app, Hd, He.
    split; reflexivity.
Qed.

(** A run that raises has saved nothing. *)
Lemma raising_run_saves_nothing (self : CausalityClass) (w w' : world)
      (e : exn) (evs : list event) :
  bootrstapping self w = (Raise e, w', evs) ->
  existsb is_savez evs = false.
Proof.
  intros Hrun. apply bootrstapping_stages in Hrun.
  destruct Hrun as [(e' & w0 & Hgen & _ & ->)
                   |(inds & w0 & r1 & w1 & es1 & Hgen & Hloop & Hend)];
    [reflexivity|].
  assert (Hzero : collected_lengths (mkCollected [] [] []) 0)
    by (repeat split).
  destruct (@bootstrap_loop_spec self inds _ _ _ _ _ _ Hloop Hzero)
    as (Hsave & _).
  destruct Hend as [(e' & _ & _ & ->)|(acc & _ & Habs & _)];
    [exact Hsave|discriminate].
Qed.

End Loop.

(** ** The block size and the offsets *)

Section Offsets.
Context {E : External}.

Lemma n_months_ok (self : CausalityClass) (n : Z) :
  n_months self = Ok n ->
  exists r0 r1 rest,
    range_months self = r0 :: r1 :: rest /\ n = Z.max 0 (r1 - r0 + 1).
Proof.
  unfold n_months, Py.index.
  destruct (range_months self) as [|r0 [|r1 rest]]; simpl; try discriminate.
  intros H. injection H as <-. exists r0, r1, rest. split; [reflexivity|].
  unfold Py.len, Py.range. rewrite length_map, length_seq. lia.
Qed.

Lemma range_step_ok (t n : Z) (a : list Z) :
  0 <= n -> Py.range_step 0 t n = Ok a ->
  0 < n /\ Forall (fun i => 0 <= i < t /\ (n | i)) a.
Proof.
  intros Hn. unfold Py.range_step.
  destruct (n =? 0) eqn:Hz; [discriminate|].
  apply Z.eqb_neq in Hz. assert (Hpos : 0 < n) by lia.
  assert (Hlt : (0 <? n) = true) by now apply Z.ltb_lt.
  rewrite Hlt. intros H. injection H as <-. split; [exact Hpos|].
  rewrite Forall_forall. intros i Hin.
  apply in_map_iff in Hin. destruct Hin as (k & <- & Hk).
  apply in_seq in Hk. simpl.
  assert (Hk' : Z.of_nat k < (t - 0 + n - 1) / n) by lia.
  assert (Hdiv : n * ((t - 0 + n - 1) / n) <= t - 0 + n - 1)
    by (apply Z.mul_div_le; lia).
  repeat split; try nia.
  exists (Z.of_nat k). reflexivity.
Qed.

End Offsets.

(** ** The rebuilt data frame *)

Section Aligned.
Context {E : External}.

Lemma result_map_list_ok {A B} (f : A -> result B) (l : list A)
      (out : list B) :
  result_map_list f l = Ok out -> Forall2 (fun x y => f x = Ok y) l out.
Proof.
  revert out. induction l as [|x t IH]; simpl; intros out H.
  - injection H as <-. constructor.
  - destruct (f x) as [y|] eqn:Hx; simpl in H; [|discriminate].
    destruct (result_map_list f t) as [ys|]; simpl in H; [|discriminate].
    injection H as <-. constructor; auto.
Qed.

Lemma Forall2_In_left {A B} (R : A -> B -> Prop) (l : list A) (l' : list B)
      (x : A) :
  Forall2 R l l' -> In x l -> exists y, In y l' /\ R x y.
Proof.
  induction 1 as [|a b t t' Hab Hall IH]; intros Hin; [destruct Hin|].
  destruct Hin as [->|Hin].
  - exists b. split; [now left|exact Hab].
  - destruct (IH Hin) as (y & Hy & HR). exists y. split; [now right|exact HR].
Qed.

Lemma Forall2_nth_left {A B} (R : A -> B -> Prop) (l : list A) (l' : list B)
      (j : nat) (x : A) :
  Forall2 R l l' -> nth_error l j = Some x ->
  exists y, nth_error l' j = Some y /\ R x y.
Proof.
  intros Hall. revert j.
  induction Hall as [|a b t t' Hab Hall IH]; intros j Hj.
  - destruct j; discriminate.
  - destruct j as [|j]; simpl in *.
    + injection Hj as <-. now exists b.
    + now apply IH.
Qed.

(** What [generate_dataframe] returns is the stacked frame; it raises
    when the stacking does, and without a plot it is the stacking. *)
Lemma aligned_stacked (self : CausalityClass) (d : list (string * Dataset))
      (built : DataFrame value * list string) :
  aligned self d = Ok built -> stacked_frame self d = Ok built.
Proof.
  unfold aligned. destruct (stacked_frame self d) as [b|]; [|discriminate].
  simpl. destruct (if boot_iter self =? 0 then _ else _); [|discriminate].
  simpl. intros H. now injection H as <-.
Qed.

Lemma aligned_stacked_raise (self : CausalityClass)
      (d : list (string * Dataset)) (e : exn) :
  stacked_frame self d = Raise e -> aligned self d = Raise e.
Proof. unfold aligned. now intros ->. Qed.

Lemma aligned_without_plot (self : CausalityClass)
      (d : list (string * Dataset)) :
  boot_iter self <> 0 -> aligned self d = stacked_frame self d.
Proof.
  intros Hnz. unfold aligned. apply Z.eqb_neq in Hnz. rewrite Hnz.
  now destruct (stacked_frame self d).
Qed.

(** A successful rebuild: the names are the sorted intersection, there is
    at least one, every named series was found, all have one length, and
    the frame is their transpose, with that many rows. *)
Lemma aligned_ok (self : CausalityClass) (d : list (string * Dataset))
      (df : DataFrame value) (names : list string) :
  aligned self d = Ok (df, names) ->
  names = Np.intersect1d (var_names self) (Py.keys d) /\
  df_var_names df = names /\
  names <> [] /\
  exists dataset n,
    Forall2 (fun k s => series_of d k = Ok s) names dataset /\
    Forall (fun s => length s = n) dataset /\
    df_values df = fold_right Np.zip_cons (repeat [] n) dataset /\
    length (df_values df) = n /\
    df_datatime df = Np.arange (Z.of_nat n).
Proof.
  intros Hal. apply aligned_stacked in Hal. revert Hal.
  unfold stacked_frame.
  destruct (result_map_list _ _) as [dataset|] eqn:Hmap; [|discriminate].
  simpl. destruct (Np.vstack dataset) as [stacked|] eqn:Hstack;
    [|discriminate].
  simpl. intros H. injection H as <- <-.
  apply vstack_ok in Hstack. destruct Hstack as (-> & Hne & Hall).
  apply result_map_list_ok in Hmap.
  repeat split.
  - intros Hnil. rewrite Hnil in Hmap. inversion Hmap. congruence.
  - exists dataset, (length (hd [] dataset)). simpl.
    pose proof (transpose_length Hall) as Hlen.
    unfold Np.transpose, Py.len. rewrite Hlen. repeat split; auto.
Qed.

(** For an object built by [__init__], the rebuilt frame has as many rows
    as the first series of the mapping has values. *)
Lemma aligned_full_length (d : list (string * Dataset)) (cfg : Config)
      (df : DataFrame value) (names : list string) (T : Z) :
  aligned (init d cfg) d = Ok (df, names) ->
  first_series_length (init d cfg) = Ok T ->
  Py.len (df_values df) = T.
Proof.
  intros Hal HT. apply aligned_ok in Hal.
  destruct Hal as (Hnames & _ & _ & dataset & n & Hser & Hall & _ & Hlen & _).
  unfold first_series_length, Py.index in HT. simpl in HT.
  destruct d as [|[k0 ds] t]; simpl in HT; [discriminate|].
  destruct (series_of ((k0, ds) :: t) k0) as [s|] eqn:Hs; simpl in HT;
    [|discriminate].
  injection HT as <-.
  assert (Hin : In k0 names).
  { rewrite Hnames. apply intersect1d_In. simpl. auto. }
  destruct (@Forall2_In_left _ _ _ _ _ _ Hser Hin) as (s' & Hs' & Heq).
  rewrite Hs in Heq. injection Heq as <-.
  rewrite Forall_forall in Hall. unfold Py.len. rewrite Hlen.
  now rewrite (Hall _ Hs').
Qed.

Lemma Forall2_In_right {A B} (R : A -> B -> Prop) (l : list A) (l' : list B)
      (y : B) :
  Forall2 R l l' -> In y l' -> exists x, In x l /\ R x y.
Proof.
  induction 1 as [|a b t t' Hab Hall IH]; intros Hin; [destruct Hin|].
  destruct Hin as [->|Hin].
  - exists a. split; [now left|exact Hab].
  - destruct (IH Hin) as (x & Hx & HR). exists x. split; [now right|exact HR].
Qed.

Lemma In_firstn {A} (k : nat) (l : list A) (x : A) :
  In x (firstn k l) -> In x l.
Proof.
  intros H. rewrite <- (firstn_skipn k l). apply in_or_app. now left.
Qed.

(** The frame of the pass with offset [i], for an offset that
    [generate_random_indices] can return. *)
Lemma trimmed_frame_ok (d : list (string * Dataset)) (cfg : Config)
      (i block T : Z) (df : DataFrame value) :
  trimmed_frame (init d cfg) i = Ok df ->
  n_months (init d cfg) = Ok block ->
  first_series_length (init d cfg) = Ok T ->
  0 <= i -> 0 < block ->
  exists full names,
    aligned (init d cfg) d =
      Ok (mkDataFrame full (Np.arange T) names, names) /\
    Py.len full = T /\
    i + block <= T /\
    df = without_block full names i block /\
    Py.len (df_values df) = T - block.
Proof.
  unfold trimmed_frame. intros Htrim Hn HT Hi Hblock.
  change (D (init d cfg)) with d in Htrim.
  destruct (aligned (init d cfg) d) as [[frame names]|] eqn:Hal;
    [|discriminate].
  simpl in Htrim. rewrite Hn in Htrim. simpl in Htrim.
  destruct (Np.delete _ _) as [trimmed|] eqn:Hdel; [|discriminate].
  simpl in Htrim. injection Htrim as <-.
  pose proof (aligned_full_length _ _ Hal HT) as Hlen.
  destruct (aligned_ok _ _ Hal) as (_ & Hvn & _ & ds & n & _ & _ & _ & Hrows & Htime).
  destruct (delete_block _ Hi Hblock Hdel) as (Hin & -> & Hout).
  destruct frame as [full time vn]. simpl in *. subst vn time.
  assert (HnT : Z.of_nat n = T) by (unfold Py.len in Hlen; lia).
  exists full, names. rewrite <- HnT at 1.
  repeat split; try lia.
  unfold without_block, set_values. simpl. unfold Py.len. now rewrite Hrows.
Qed.

Lemma trimmed_frame_names (self : CausalityClass) (i : Z)
      (df : DataFrame value) :
  trimmed_frame self i = Ok df ->
  exists frame names,
    aligned self (D self) = Ok (frame, names) /\ df_var_names df = names.
Proof.
  unfold trimmed_frame.
  destruct (aligned self (D self)) as [[frame names]|] eqn:Hal;
    [|discriminate].
  simpl. destruct (n_months self); [|discriminate]. simpl.
  destruct (Np.delete _ _); [|discriminate]. simpl.
  intros H. injection H as <-. exists frame, names. split; [reflexivity|].
  simpl. now destruct (aligned_ok _ _ Hal) as (_ & -> & _).
Qed.

(** A mapping whose intersection with the configured names is empty, or
    whose retained series differ in length, cannot be aligned. *)
Lemma aligned_fails (self : CausalityClass) (d : list (string * Dataset)) :
  Np.intersect1d (var_names self) (Py.keys d) = [] \/
  (exists k1 k2 s1 s2,
      In k1 (Np.intersect1d (var_names self) (Py.keys d)) /\
      In k2 (Np.intersect1d (var_names self) (Py.keys d)) /\
      series_of d k1 = Ok s1 /\ series_of d k2 = Ok s2 /\
      length s1 <> length s2) ->
  exists e, aligned self d = Raise e.
Proof.
  intros H.
  cut (exists e, stacked_frame self d = Raise e).
  { intros [e He]. exists e. now apply aligned_stacked_raise. }
  revert H. unfold stacked_frame.
  intros [Hnil|(k1 & k2 & s1 & s2 & H1 & H2 & Hs1 & Hs2 & Hne)].
  - rewrite Hnil. simpl. now exists ValueError.
  - destruct (result_map_list _ _) as [dataset|e] eqn:Hmap;
      [|now exists e].
    apply result_map_list_ok in Hmap. simpl.
    destruct (@Forall2_In_left _ _ _ _ _ _ Hmap H1) as (x1 & Hx1 & Heq1).
    destruct (@Forall2_In_left _ _ _ _ _ _ Hmap H2) as (x2 & Hx2 & Heq2).
    rewrite Hs1 in Heq1. rewrite Hs2 in Heq2.
    injection Heq1 as <-. injection Heq2 as <-.
    rewrite (@vstack_ragged _ _ _ _ Hx1 Hx2 Hne). now exists ValueError.
Qed.

End Aligned.

(** ** The stages of a pass and of a completed run *)

Section PassStages.
Context {E : External}.
Local Open Scope py_scope.

(** One pass of the loop body, stage by stage. *)
Lemma bootstrap_iteration_eq (self : CausalityClass) (i : Z)
      (acc : collected) (w : world) :
  bootstrap_iteration self i acc w =
  match aligned self (D self) with
  | Raise e => (Raise e, w, [])
  | Ok built =>
      let plots := plot_events self (Ok built) in
      match n_months self with
      | Raise e => (Raise e, w, plots)
      | Ok n_mons =>
          match Np.delete (df_values (fst built))
                  (Py.range i (i + n_mons)) with
          | Raise e => (Raise e, w, plots)
          | Ok trimmed =>
              let df := set_values (fst built) trimmed in
              let searched :=
                plots ++ [pcmci_run df (tau_min self) (tau_max self)] in
              match run_pcmci df (tau_min self) (tau_max self) with
              | Raise e => (Raise e, w, searched)
              | Ok results =>
                  let sp := return_significant_parents
                              (get_corrected_pvalues (fst results))
                              (snd results) (alpha_level self) in
                  let fit :=
                    searched ++ [mediation_fit df (fst sp) (tau_max self)] in
                  match fit_model (LinearMediation df) (fst sp)
                          (tau_max self) with
                  | Raise e =>
                      (Raise e,
                       mkWorld (rng w) (Some (LinearMediation df)), fit)
                  | Ok fitted =>
                      let w1 := mkWorld (rng w) (Some fitted) in
                      if (Nat.eqb (length (get_all_ace fitted)) 4
                          && Nat.eqb (length (get_all_acs fitted)) 4)%bool
                      then
                        (Ok (mkCollected
                               (all_val_matrices acc
                                ++ [get_val_matrix fitted])
                               (all_ace acc ++ [get_all_ace fitted])
                               (all_acs acc ++ [get_all_acs fitted])),
                         w1, fit)
                      else (Raise TypeError, w1, fit)
                  end
              end
          end
      end
  end.
Proof.
  unfold bootstrap_iteration, get_links_beta_coeffs.
  unfold bind at 1. rewrite generate_dataframe_eq.
  destruct (aligned self (D self)) as [built|e]; cbv beta iota zeta;
    [|reflexivity].
  generalize (plot_events self (Ok built)). intros plots.
  unfold bind at 1, lift at 1.
  destruct (n_months self) as [n_mons|e]; cbv beta iota zeta;
    [|now rewrite app_nil_r].
  unfold bind at 1, lift at 1.
  destruct (Np.delete (df_values (fst built)) (Py.range i (i + n_mons)))
    as [trimmed|e]; cbv beta iota zeta; [|simpl; now rewrite app_nil_r].
  unfold bind at 1. rewrite construct_causal_graph_eq.
  destruct (run_pcmci _ _ _) as [results|e]; cbv beta iota zeta;
    unfold result_bind; [|reflexivity].
  unfold bind at 1. rewrite linear_estimator_eq.
  destruct (fit_model _ _ _) as [fitted|e]; cbv beta iota zeta;
    [|simpl; now rewrite <- app_assoc].
  unfold bind, lift, ret, get_linear_mediator, Py.format4. simpl.
  destruct (Nat.eqb (length (get_all_ace fitted)) 4); simpl;
    [|now rewrite <- app_assoc].
  destruct (Nat.eqb (length (get_all_acs fitted)) 4); simpl;
    now rewrite <- app_assoc.
Qed.

Lemma delete_overrun {A} (arr : list A) (i k : Z) :
  0 <= i -> 0 < k -> Py.len arr < i + k ->
  Np.delete arr (Py.range i (i + k)) = Raise IndexError.
Proof.
  intros Hi Hk Hover. unfold Np.delete.
  destruct (forallb _ (Py.range i (i + k))) eqn:Hall; [|reflexivity].
  rewrite forallb_forall in Hall. specialize (Hall (i + k - 1)).
  assert (Hmem : In (i + k - 1) (Py.range i (i + k))).
  { unfold Py.range. apply in_map_iff.
    exists (Z.to_nat (k - 1)). split; [lia|]. apply in_seq. lia. }
  specialize (Hall Hmem). lia.
Qed.

Lemma last_cons_default {A} (l : list A) (x d d' : A) :
  last (x :: l) d = last (x :: l) d'.
Proof.
  revert x. induction l as [|y l IH]; intros x; [reflexivity|].
  change (last (y :: l) d = last (y :: l) d'). apply IH.
Qed.

(** A completed loop: one fitted model per searched frame, appended in
    order to the three lists; the mediator field ends as the last of
    them, and the generator state is not touched. *)
Lemma bootstrap_loop_ok (self : CausalityClass) (rnd_inds : list Z) :
  forall acc acc' w w' evs,
    bootstrap_loop self rnd_inds acc w = (Ok acc', w', evs) ->
    exists fits,
      Forall2 (fitted_on self) (discovery_inputs evs) fits /\
      acc' = mkCollected
               (all_val_matrices acc ++ map get_val_matrix fits)
               (all_ace acc ++ map get_all_ace fits)
               (all_acs acc ++ map get_all_acs fits) /\
      linear_mediator w' = last (map Some fits) (linear_mediator w) /\
      rng w' = rng w.
Proof.
  induction rnd_inds as [|i rest IH]; intros acc acc' w w' evs Hrun.
  - simpl in Hrun. unfold ret in Hrun. injection Hrun as <- <- <-.
    exists []. simpl. rewrite !app_nil_r. repeat split; [constructor|].
    now destruct acc.
  - simpl in Hrun. apply bind_inv in Hrun.
    destruct Hrun as [(e & _ & Habs)
                     |(acc1 & w1 & es1 & es2 & Hpass & Hrest & ->)];
      [discriminate|].
    rewrite bootstrap_iteration_eq in Hpass.
    destruct (aligned self (D self)) as [built|]; [|discriminate].
    destruct (n_months self) as [n|]; [|discriminate].
    destruct (Np.delete _ _) as [trimmed|]; [|discriminate].
    cbv zeta in Hpass.
    destruct (run_pcmci _ _ _) as [results|] eqn:Hsearch; [|discriminate].
    destruct (fit_model _ _ _) as [fitted|] eqn:Hfit; [|discriminate].
    destruct (_ && _)%bool; [|discriminate].
    injection Hpass as <- <- <-.
    destruct (IH _ _ _ _ _ Hrest) as (fits & Hfits & -> & Hmed & Hrng).
    exists (fitted :: fits).
    rewrite !discovery_inputs_app.
    assert (Hplots : discovery_inputs
                       (if boot_iter self =? 0
                        then [plot_timeseries (fst built)
                                (String.append (save_path self)
                                   "timeseries_data_plot")]
                        else []) = [])
      by now destruct (boot_iter self =? 0).
    rewrite Hplots. simpl.
    repeat split.
    + constructor; [|exact Hfits]. exists results. auto.
    + now rewrite <- !app_assoc.
    + rewrite Hmed. simpl. destruct fits as [|f fits']; [reflexivity|].
      apply last_cons_default.
    + exact Hrng.
Qed.

Lemma fitted_on_search_and_estimate (self : CausalityClass)
      (df : DataFrame value) (fitted : mediator) :
  fitted_on self df fitted ->
  forall v, exists sp,
    search_and_estimate self df v =
    (Ok (sp, get_val_matrix fitted), mkWorld (rng v) (Some fitted),
     [pcmci_run df (tau_min self) (tau_max self);
      mediation_fit df (fst sp) (tau_max self)]).
Proof.
  intros (results & Hsearch & Hfit) v.
  rewrite search_and_estimate_eq, Hsearch. cbv zeta. rewrite Hfit. eauto.
Qed.

(** A completed run: the draw, the completed loop, then the archive; the
    state is the one the loop left. *)
Lemma bootrstapping_completed (self : CausalityClass) (w w' : world)
      (evs : list event) :
  bootrstapping self w = (Ok tt, w', evs) ->
  exists inds w0 acc es1,
    generate_random_indices self w = (Ok inds, w0, []) /\
    bootstrap_loop self inds (mkCollected [] [] []) w0 = (Ok acc, w', es1) /\
    evs = es1 ++ [savez (archive_name self) inds (all_val_matrices acc)
                    (all_ace acc) (all_acs acc)].
Proof.
  unfold bootrstapping. intros Hrun.
  pose proof (generate_random_indices_events self w) as Hnil.
  apply bind_inv in Hrun.
  destruct Hrun as [(e & _ & Habs)
                   |(inds & w0 & es0 & es & Hgen & Hrun & ->)];
    [discriminate|].
  rewrite Hgen in Hnil. simpl in Hnil. subst es0.
  apply bind_inv in Hrun.
  destruct Hrun as [(e & _ & Habs)
                   |(acc & w1 & es1 & es2 & Hloop & Hsave & ->)];
    [discriminate|].
  unfold emit in Hsave. injection Hsave as <- <-.
  exists inds, w0, acc, es1. auto.
Qed.

End PassStages.

(** ** Joined names *)

Lemma append_inj_l (p x y : string) :
  String.append p x = String.append p y -> x = y.
Proof.
  induction p as [|c p IH]; simpl; intros H; [exact H|].
  injection H as H. auto.
Qed.

Lemma join_cons (sep x : string) (t : list string) :
  Py.join sep (x :: t) =
  String.append x
    (match t with
     | [] => EmptyString
     | _ :: _ => String.append sep (Py.join sep t)
     end).
Proof.
  unfold Py.join. destruct t as [|y t]; simpl; [|reflexivity].
  induction x as [|c x IH]; simpl; [reflexivity|]. now rewrite <- IH.
Qed.

(** Two underscore-free names followed by nothing or by an underscore. *)
Lemma underscore_free_head (x y r1 r2 : string) :
  has_char "_" x = false -> has_char "_" y = false ->
  (r1 = EmptyString \/ exists r, r1 = String "_" r) ->
  (r2 = EmptyString \/ exists r, r2 = String "_" r) ->
  String.append x r1 = String.append y r2 -> x = y /\ r1 = r2.
Proof.
  revert y. induction x as [|c x IH]; intros [|c' y] Hx Hy H1 H2; simpl.
  - auto.
  - intros ->. destruct H1 as [H1|(r & H1)]; [discriminate|].
    injection H1 as -> _. simpl in Hy. discriminate.
  - intros <-. destruct H2 as [H2|(r & H2)]; [discriminate|].
    injection H2 as -> _. simpl in Hx. discriminate.
  - intros H. injection H as -> H. simpl in Hx, Hy.
    apply orb_false_iff in Hx, Hy.
    destruct (IH y (proj2 Hx) (proj2 Hy) H1 H2 H) as (-> & ->). auto.
Qed.

(** Joining underscore-free names with underscores loses nothing. *)
Lemma join_underscore_inj (l1 l2 : list string) :
  Forall (fun k => has_char "_" k = false) l1 ->
  Forall (fun k => has_char "_" k = false) l2 ->
  l1 <> [] -> l2 <> [] ->
  Py.join "_" l1 = Py.join "_" l2 -> l1 = l2.
Proof.
  intros H1. revert l2.
  induction H1 as [|x t1 Hx Ht1 IH]; intros l2 H2 Hne1 Hne2; [congruence|].
  destruct H2 as [|y t2 Hy Ht2]; [congruence|].
  rewrite !join_cons. intros Heq.
  apply underscore_free_head in Heq; try assumption.
  - destruct Heq as (-> & Hrest). f_equal.
    destruct t1 as [|a t1], t2 as [|b t2]; try discriminate; auto.
    apply append_inj_l in Hrest.
    apply IH; try assumption; discriminate.
  - destruct t1; [now left|right]. simpl. eauto.
  - destruct t2; [now left|right]. simpl. eauto.
Qed.

(** * The claims *)

Section Claims.
Context {E : External}.

(** The offsets a successful draw returns. *)
Lemma drawn_offsets_spec {ES : ExternalSpec E}
        (self : CausalityClass) (w w' : world) (inds : list Z)
        (evs : list event) :
  generate_random_indices self w = (Ok inds, w', evs) ->
  exists r0 r1 rest T,
    range_months self = r0 :: r1 :: rest /\
    first_series_length self = Ok T /\
    0 < r1 - r0 + 1 /\
    Py.len inds = boot_iter self /\
    Forall (fun i => 0 <= i < T /\ (r1 - r0 + 1 | i)) inds.
Proof.
  intros Hrun. apply generate_random_indices_ok in Hrun.
  destruct Hrun as (a & Hsample & Hiter & Hpop & ->).
  unfold sample_size in Hsample.
  destruct (n_months self) as [n|] eqn:Hn; [|discriminate].
  destruct (first_series_length self) as [T|] eqn:HT; [|discriminate].
  simpl in Hsample.
  destruct (n_months_ok self Hn) as (r0 & r1 & rest & Hrm & ->).
  apply range_step_ok in Hsample; [|lia].
  destruct Hsample as (Hpos & Hall).
  exists r0, r1, rest, T.
  replace (Z.max 0 (r1 - r0 + 1)) with (r1 - r0 + 1) in * by lia.
  repeat split; try assumption.
  - unfold Py.len. rewrite length_map, randint_length. lia.
  - rewrite Forall_forall in *. intros i Hin.
    apply in_map_iff in Hin. destruct Hin as (j & <- & Hj).
    destruct Hpop as [Hne|Hzero].
    + apply Hall, nth_In.
      assert (Hlen : (0 < length a)%nat) by (destruct a; simpl; [congruence|lia]).
      pose proof (randint_bound (np_random_seed 113)
                    (Z.to_nat (boot_iter self)) Hlen) as Hb.
      rewrite Forall_forall in Hb. now apply Hb.
    + pose proof (randint_length (np_random_seed 113) (length a)
                    (Z.to_nat (boot_iter self))) as Hl.
      rewrite Hzero in Hl, Hj. change (Z.to_nat 0) with 0%nat in *.
      destruct (fst (np_random_randint (np_random_seed 113) (length a) 0));
        [contradiction|discriminate].
Qed.

(** C4. Every offset that [generate_random_indices] returns is a
    non-negative multiple of the block size
    [range_months[1] - range_months[0] + 1] and lies below the length [T]
    of the first series; the block size is positive, and exactly
    [boot_iter] offsets are returned. *)
Theorem offsets_are_block_starts {ES : ExternalSpec E}
        (self : CausalityClass) (w w' : world) (inds : list Z)
        (evs : list event) :
  generate_random_indices self w = (Ok inds, w', evs) ->
  exists r0 r1 rest T,
    range_months self = r0 :: r1 :: rest /\
    first_series_length self = Ok T /\
    0 < r1 - r0 + 1 /\
    Py.len inds = boot_iter self /\
    Forall (fun i => 0 <= i < T /\ (r1 - r0 + 1 | i)) inds.
Proof. apply drawn_offsets_spec. Qed.

(** C1. Two runs of the resampler on the same source mapping, block
    (range_months) and iteration count draw the same sequence of offsets,
    whatever state each run starts from (generator state, mediator field)
    and whatever the other options are; and two runs of the whole
    bootstrap on the same object end alike and hand the same offsets and
    the same three collections to the same archive. *)
Theorem bootstrap_deterministic
        (d : list (string * Dataset)) (cfg1 cfg2 : Config) (w1 w2 : world) :
  cfg_range_months cfg1 = cfg_range_months cfg2 ->
  cfg_boot_iters cfg1 = cfg_boot_iters cfg2 ->
  outcome (generate_random_indices (init d cfg1) w1) =
  outcome (generate_random_indices (init d cfg2) w2) /\
  outcome (bootrstapping (init d cfg1) w1) =
  outcome (bootrstapping (init d cfg1) w2).
Proof.
  intros Hmonths Hiters. split.
  - assert (Hsame : generate_random_indices (init d cfg1) =
                    generate_random_indices (init d cfg2)).
    { unfold generate_random_indices, n_months, first_series_length, init.
      simpl. now rewrite Hmonths, Hiters. }
    rewrite Hsame.
    exact (proj1 (@related_generate_random_indices E false false
                    (init d cfg2) w1 w2 (agree_nothing w1 w2))).
  - exact (proj1 (@related_bootrstapping E false false (init d cfg1)
                    w1 w2 (agree_nothing w1 w2))).
Qed.

(** C9. Running Causal Search and then the Mediation Estimator a second
    time on the same data frame, from the state the first run left, gives
    the same result (parents, link matrix and coefficient matrix, or the
    same exception) and the same library calls; a returning run leaves
    the same state again. *)
Theorem search_and_estimate_twice
        (self : CausalityClass) (df : DataFrame value) (w : world) :
  outcome (search_and_estimate self df
             (final_world (search_and_estimate self df w))) =
  outcome (search_and_estimate self df w) /\
  (forall a, fst (fst (search_and_estimate self df w)) = Ok a ->
     final_world (search_and_estimate self df
                    (final_world (search_and_estimate self df w))) =
     final_world (search_and_estimate self df w)).
Proof.
  split.
  - symmetry.
    exact (proj1 (@related_search_and_estimate E false false self df
                    w _ (agree_nothing _ _))).
  - intros a. unfold final_world.
    rewrite (search_and_estimate_eq self df w).
    destruct (run_pcmci df (tau_min self) (tau_max self))
      as [results|e] eqn:Hrun; [|discriminate].
    cbv zeta.
    destruct (fit_model _ _ _) as [fitted|e] eqn:Hfit; [|discriminate].
    intros _. simpl. rewrite search_and_estimate_eq, Hrun. cbv zeta.
    rewrite Hfit. reflexivity.
Qed.

(** C7. A bootstrap run that completes has written exactly one archive,
    as its last action.  The archive holds the whole sequence of drawn
    offsets and, for each of the [boot_iter] iterations in order, the
    coefficient matrix, the ACE vector and the ACS vector of the model
    that Causal Search followed by the Mediation Estimator fits on the
    frame of that iteration, which is the rebuilt frame trimmed at the
    iteration's offset; each iteration has run one search and one fit.  A
    run that raises has written no archive. *)
Theorem archive_written_once_after_loop {ES : ExternalSpec E}
        (self : CausalityClass) (w w' : world) (r : result unit)
        (evs : list event) :
  bootrstapping self w = (r, w', evs) ->
  match r with
  | Ok _ =>
      exists inds fits before w0,
        generate_random_indices self w = (Ok inds, w0, []) /\
        evs = before ++ [savez (archive_name self) inds
                           (map get_val_matrix fits) (map get_all_ace fits)
                           (map get_all_acs fits)] /\
        existsb is_savez before = false /\
        Py.len inds = boot_iter self /\
        length fits = length inds /\
        length (discovery_inputs before) = length inds /\
        estimation_inputs before = discovery_inputs before /\
        Forall2 (fun i df => trimmed_frame self i = Ok df)
                inds (discovery_inputs before) /\
        Forall2
          (fun df fitted =>
             forall v, exists sp,
               search_and_estimate self df v =
               (Ok (sp, get_val_matrix fitted),
                mkWorld (rng v) (Some fitted),
                [pcmci_run df (tau_min self) (tau_max self);
                 mediation_fit df (fst sp) (tau_max self)]))
          (discovery_inputs before) fits
  | Raise _ => existsb is_savez evs = false
  end.
Proof.
  intros Hrun. apply bootrstapping_stages in Hrun.
  destruct Hrun as [(e & w0 & Hgen & -> & ->)
                   |(inds & w0 & r1 & w1 & es1 & Hgen & Hloop & Hend)];
    [reflexivity|].
  assert (Hzero : collected_lengths (mkCollected [] [] []) 0)
    by (repeat split).
  destruct (@bootstrap_loop_spec E self inds _ _ _ _ _ _ Hloop Hzero)
    as (Hsave & k & Hk & Hfr & Hsub & Hfin).
  destruct Hend as [(e & -> & -> & ->)|(acc & -> & -> & ->)];
    [exact Hsave|].
  destruct (Hfin acc eq_refl) as (-> & _ & Hest & _).
  destruct (@drawn_offsets_spec ES self _ _ _ _ Hgen)
    as (r0 & r1 & rest & T & _ & _ & _ & Hlen & _).
  destruct (bootstrap_loop_ok _ _ _ _ Hloop) as (fits & Hfits & -> & _).
  rewrite firstn_all in Hfr.
  exists inds, fits, es1, w0. simpl.
  repeat split; auto.
  - rewrite <- (Forall2_length Hfits). symmetry. exact (Forall2_length Hfr).
  - symmetry. exact (Forall2_length Hfr).
  - eapply Forall2_impl; [|exact Hfits].
    intros df fitted. apply fitted_on_search_and_estimate.
Qed.

(** C2 (amended). With [boot_iter = 0] the bootstrap procedure runs no
    causal search and no mediation fit; when it completes, its only
    action is to write one archive, whose offsets and three collections
    are empty; when it raises, it does nothing. *)
Theorem zero_iterations_write_an_empty_archive {ES : ExternalSpec E}
        (self : CausalityClass) (w w' : world) (r : result unit)
        (evs : list event) :
  boot_iter self = 0 ->
  bootrstapping self w = (r, w', evs) ->
  discovery_inputs evs = [] /\ estimation_inputs evs = [] /\
  match r with
  | Ok _ => evs = [savez (archive_name self) [] [] [] []]
  | Raise _ => evs = []
  end.
Proof.
  intros Hzero Hrun. apply bootrstapping_stages in Hrun.
  destruct Hrun as [(e & w0 & Hgen & -> & ->)
                   |(inds & w0 & r1 & w1 & es1 & Hgen & Hloop & Hend)];
    [repeat split|].
  destruct (@drawn_offsets_spec ES self _ _ _ _ Hgen)
    as (r0 & r1' & rest & T & _ & _ & _ & Hlen & _).
  assert (inds = []) as ->.
  { unfold Py.len in Hlen. destruct inds; [reflexivity|simpl in Hlen; lia]. }
  simpl in Hloop. unfold ret in Hloop. injection Hloop as <- <- <-.
  destruct Hend as [(e & Habs & _)|(acc & Hacc & -> & ->)];
    [discriminate|].
  injection Hacc as <-. repeat split.
Qed.

(** Every data frame that a bootstrap run hands to the causal search
    or to the mediation fit is the frame rebuilt from the original
    mapping, of full length [T], with the [block] rows starting at one of
    the drawn offsets removed, where
    [block = range_months[1] - range_months[0] + 1]: it has [T - block]
    rows.  The rebuild gives the same full frame from any state, so no
    pass sees what an earlier pass trimmed. *)
Theorem each_pass_removes_one_block {ES : ExternalSpec E}
        (d : list (string * Dataset)) (cfg : Config) (w w' : world)
        (r : result unit) (evs : list event) (df : DataFrame value) :
  bootrstapping (init d cfg) w = (r, w', evs) ->
  In df (discovery_inputs evs) \/ In df (estimation_inputs evs) ->
  exists full names block T inds w0 i,
    (forall v, generate_dataframe (init d cfg) d v =
               (Ok (mkDataFrame full (Np.arange T) names, names), v, [])) /\
    n_months (init d cfg) = Ok block /\
    first_series_length (init d cfg) = Ok T /\
    Py.len full = T /\
    generate_random_indices (init d cfg) w = (Ok inds, w0, []) /\
    In i inds /\
    df = without_block full names i block /\
    Py.len (df_values df) = T - block.
Proof.
  intros Hrun Hdf. apply bootrstapping_stages in Hrun.
  destruct Hrun as [(e & w0 & Hgen & -> & ->)
                   |(inds & w0 & r1 & w1 & es1 & Hgen & Hloop & Hend)];
    [destruct Hdf as [[]|[]]|].
  assert (Hzero : collected_lengths (mkCollected [] [] []) 0)
    by (repeat split).
  destruct (@bootstrap_loop_spec E _ inds _ _ _ _ _ _ Hloop Hzero)
    as (_ & k & _ & Hfr & Hsub & _).
  assert (Hin : In df (discovery_inputs es1)).
  { destruct Hend as [(e & _ & _ & ->)|(acc & _ & _ & ->)].
    - destruct Hdf as [H|H]; auto.
    - rewrite discovery_inputs_app, estimation_inputs_app in Hdf.
      simpl in Hdf. rewrite !app_nil_r in Hdf. destruct Hdf as [H|H]; auto. }
  destruct (@Forall2_In_right _ _ _ _ _ _ Hfr Hin) as (i & Hi & Htrim).
  apply In_firstn in Hi.
  destruct (@drawn_offsets_spec ES _ _ _ _ _ Hgen)
    as (r0 & r1' & rest & T & Hrm & HT & Hpos & Hlen & Hall).
  rewrite Forall_forall in Hall. destruct (Hall _ Hi) as ((Hi0 & _) & _).
  assert (Hn : n_months (init d cfg) = Ok (r1' - r0 + 1)).
  { destruct (n_months (init d cfg)) as [n|] eqn:Hn.
    - destruct (n_months_ok _ Hn) as (a & b & c & Hrm' & ->).
      rewrite Hrm in Hrm'. injection Hrm' as <- <- _. f_equal. lia.
    - unfold n_months, Py.index in Hn. rewrite Hrm in Hn. discriminate. }
  destruct (trimmed_frame_ok _ _ Htrim Hn HT Hi0 Hpos)
    as (full & names & Hal & Hfull & _ & Heq & Hrows).
  exists full, names, (r1' - r0 + 1), T, inds, w0, i.
  repeat split; auto.
  intros v. rewrite generate_dataframe_eq, Hal. unfold plot_events.
  assert (Hnz : (boot_iter (init d cfg) =? 0) = false).
  { apply Z.eqb_neq. unfold Py.len in Hlen.
    destruct inds; [destruct Hi|simpl in Hlen |- *; lia]. }
  now rewrite Hnz.
Qed.

(** C3. A drawn offset whose block [i, i + block) runs past the end of
    the series removes nothing: its pass raises before the causal search,
    with [IndexError] at the deletion when the frame was rebuilt, so no
    dataset of [T - block] rows is handed on; and the run raises without
    writing its archive.  The offsets are drawn from [range(0, T, block)]
    (lines 255-263), which holds such an offset whenever [block] does not
    divide [T], and holds no other when [T < block]. *)
Theorem block_past_the_end_aborts_the_run {ES : ExternalSpec E}
        (d : list (string * Dataset)) (cfg : Config) (w w' w0 : world)
        (r : result unit) (evs evs0 : list event) (inds : list Z)
        (i block T : Z) :
  bootrstapping (init d cfg) w = (r, w', evs) ->
  generate_random_indices (init d cfg) w = (Ok inds, w0, evs0) ->
  n_months (init d cfg) = Ok block ->
  first_series_length (init d cfg) = Ok T ->
  In i inds ->
  T < i + block ->
  (forall acc v,
      exists e evs',
        bootstrap_iteration (init d cfg) i acc v = (Raise e, v, evs') /\
        discovery_inputs evs' = [] /\
        estimation_inputs evs' = [] /\
        (forall built,
            fst (fst (generate_dataframe (init d cfg) d v)) = Ok built ->
            e = IndexError)) /\
  (exists e, r = Raise e) /\
  existsb is_savez evs = false.
Proof.
  intros Hrun Hgen Hn HT Hi Hover.
  destruct (@drawn_offsets_spec ES _ _ _ _ _ Hgen)
    as (r0 & r1' & rest & T' & Hrm & HT' & Hpos & Hlen & Hall).
  assert (T' = T) by congruence. subst T'.
  destruct (n_months_ok _ Hn) as (a & b & c & Hrm' & Hblock).
  rewrite Hrm in Hrm'. injection Hrm' as <- <- _.
  assert (Hbpos : 0 < block) by lia.
  rewrite Forall_forall in Hall. destruct (Hall _ Hi) as ((Hi0 & _) & _).
  split.
  - intros acc v. rewrite bootstrap_iteration_eq.
    change (D (init d cfg)) with d.
    destruct (aligned (init d cfg) d) as [[frame names]|e] eqn:Hal.
    + rewrite Hn. cbv zeta. simpl fst.
      pose proof (aligned_full_length _ _ Hal HT) as Hfull.
      rewrite delete_overrun by (try assumption; lia).
      exists IndexError. eexists. split; [reflexivity|].
      unfold plot_events. destruct (boot_iter (init d cfg) =? 0);
        repeat split.
    + exists e, []. repeat split. intros built Hb.
      rewrite generate_dataframe_eq, Hal in Hb. discriminate.
  - destruct r as [[]|e].
    + exfalso. apply bootrstapping_stages in Hrun.
      destruct Hrun as [(e & w1 & _ & Habs & _)
                       |(inds' & w1 & r1 & w2 & es1 & Hgen' & Hloop & Hend)];
        [discriminate|].
      assert (inds' = inds) by congruence. subst inds'.
      destruct Hend as [(e & _ & Habs & _)|(acc & -> & _ & _)];
        [discriminate|].
      assert (Hzero : collected_lengths (mkCollected [] [] []) 0)
        by (repeat split).
      destruct (@bootstrap_loop_spec E _ inds _ _ _ _ _ _ Hloop Hzero)
        as (_ & k & _ & Hfr & _ & Hfin).
      destruct (Hfin acc eq_refl) as (-> & _).
      rewrite firstn_all in Hfr.
      destruct (@Forall2_In_left _ _ _ _ _ _ Hfr Hi) as (df & _ & Htrim).
      destruct (trimmed_frame_ok _ _ Htrim Hn HT Hi0 Hbpos)
        as (full & names & _ & _ & Hfit & _).
      lia.
    + split; [now exists e|].
      exact (@raising_run_saves_nothing E _ _ _ _ _ Hrun).
Qed.

(** C6. If the configured names and the keys of the mapping have no name
    in common, or two of the retained series differ in length, the dataset
    builder raises, from any state and without any event, instead of
    returning a matrix; and a bootstrap run on such a mapping reaches
    neither the causal search nor the mediation fit. *)
Theorem misaligned_mapping_fails
        (self : CausalityClass) (d : list (string * Dataset)) :
  Np.intersect1d (var_names self) (Py.keys d) = [] \/
  (exists k1 k2 s1 s2,
      In k1 (Np.intersect1d (var_names self) (Py.keys d)) /\
      In k2 (Np.intersect1d (var_names self) (Py.keys d)) /\
      series_of d k1 = Ok s1 /\ series_of d k2 = Ok s2 /\
      length s1 <> length s2) ->
  (exists e, forall w, generate_dataframe self d w = (Raise e, w, [])) /\
  (d = D self ->
   forall w, discovery_inputs (snd (bootrstapping self w)) = [] /\
             estimation_inputs (snd (bootrstapping self w)) = []).
Proof.
  intros Hbad. destruct (aligned_fails self d Hbad) as (e & Hal). split.
  - exists e. intros w. now rewrite generate_dataframe_eq, Hal.
  - intros -> w.
    destruct (bootrstapping self w) as [[r w'] evs] eqn:Hrun. simpl.
    exact (@no_frame_no_search E self _ _ _ _ _ Hal Hrun).
Qed.

(** A run of at least one pass completes only with four variables. *)
Lemma iterating_run_needs_four_variables {ES : ExternalSpec E}
        (self : CausalityClass) (w w' : world) (r : result unit)
        (evs : list event) :
  1 <= boot_iter self ->
  bootrstapping self w = (r, w', evs) ->
  (r = Ok tt ->
   length (Np.intersect1d (var_names self) (Py.keys (D self))) = 4%nat) /\
  (length (Np.intersect1d (var_names self) (Py.keys (D self))) <> 4%nat ->
   exists e, r = Raise e /\ existsb is_savez evs = false).
Proof.
  intros Hiter Hrun.
  assert (Hfour : r = Ok tt ->
                  length (Np.intersect1d (var_names self)
                            (Py.keys (D self))) = 4%nat).
  { intros ->. apply bootrstapping_stages in Hrun.
    destruct Hrun as [(e & w0 & _ & Habs & _)
                     |(inds & w0 & r1 & w1 & es1 & Hgen & Hloop & Hend)];
      [discriminate|].
    destruct Hend as [(e & _ & Habs & _)|(acc & -> & _ & ->)];
      [discriminate|].
    assert (Hzero : collected_lengths (mkCollected [] [] []) 0)
      by (repeat split).
    destruct (@bootstrap_loop_spec E self inds _ _ _ _ _ _ Hloop Hzero)
      as (_ & k & _ & Hfr & _ & Hfin).
    destruct (Hfin acc eq_refl) as (-> & _ & _ & Hfit).
    rewrite firstn_all in Hfr.
    destruct (@drawn_offsets_spec ES self _ _ _ _ Hgen)
      as (r0 & r1' & rest & T & _ & _ & _ & Hlen & _).
    destruct inds as [|i inds]; [unfold Py.len in Hlen; simpl in Hlen; lia|].
    inversion Hfr as [|i' df l l' Htrim Hrest Hl Hl']; subst.
    rewrite <- Hl' in Hfit. inversion Hfit as [|df' t Hdf Ht]; subst.
    destruct Hdf as (ps & fitted & Hok & Hace & _).
    destruct (trimmed_frame_names _ _ Htrim) as (frame & names & Hal & Hvn).
    destruct (aligned_ok _ _ Hal) as (<- & _).
    rewrite <- Hvn, <- Hace. symmetry. exact (ace_length _ _ _ Hok). }
  split; [exact Hfour|].
  intros Hnot. destruct r as [[]|e].
  - exfalso. exact (Hnot (Hfour eq_refl)).
  - exists e. split; [reflexivity|].
    exact (@raising_run_saves_nothing E self _ _ _ _ Hrun).
Qed.

(** One pass: it returns only with four variables; with another number it
    raises, and what it raises once its search and fit have returned is
    the [TypeError] of the four-slot format. *)
Lemma pass_needs_four_variables {ES : ExternalSpec E}
      (self : CausalityClass) (i : Z) (acc : collected) (w w' : world)
      (r : result collected) (evs : list event) :
  bootstrap_iteration self i acc w = (r, w', evs) ->
  (forall acc', r = Ok acc' ->
     length (Np.intersect1d (var_names self) (Py.keys (D self))) = 4%nat) /\
  (length (Np.intersect1d (var_names self) (Py.keys (D self))) <> 4%nat ->
   (exists e, r = Raise e) /\
   existsb is_savez evs = false /\
   forall df v a,
     In df (estimation_inputs evs) ->
     fst (fst (search_and_estimate self df v)) = Ok a ->
     r = Raise TypeError).
Proof.
  rewrite bootstrap_iteration_eq.
  destruct (aligned self (D self)) as [[frame names]|e] eqn:Hal.
  2:{ intros H. injection H as <- _ <-. split; [discriminate|].
      intros _. split; [now exists e|]. split; [reflexivity|].
      intros df v a []. }
  destruct (aligned_ok _ _ Hal) as (Hn & Hvn & _). rewrite <- Hn.
  assert (Hplot : existsb is_savez (plot_events self (Ok (frame, names)))
                  = false
                  /\ estimation_inputs (plot_events self (Ok (frame, names)))
                     = []).
  { unfold plot_events. destruct (boot_iter self =? 0); split; reflexivity. }
  cbv zeta. generalize dependent (plot_events self (Ok (frame, names))).
  intros plots (Hp1 & Hp2).
  destruct (n_months self) as [n|e].
  2:{ intros H. injection H as <- _ <-. split; [discriminate|].
      intros _. split; [now exists e|]. split; [exact Hp1|].
      rewrite Hp2. intros df v a []. }
  destruct (Np.delete _ _) as [trimmed|e].
  2:{ intros H. injection H as <- _ <-. split; [discriminate|].
      intros _. split; [now exists e|]. split; [exact Hp1|].
      rewrite Hp2. intros df v a []. }
  simpl fst.
  destruct (run_pcmci _ _ _) as [results|e] eqn:Hsearch.
  2:{ intros H. injection H as <- _ <-. split; [discriminate|].
      intros _. split; [now exists e|].
      rewrite existsb_app, estimation_inputs_app, Hp1, Hp2.
      split; [reflexivity|]. intros df v a []. }
  destruct (fit_model _ _ _) as [fitted|e] eqn:Hfit.
  2:{ intros H. injection H as <- _ <-. split; [discriminate|].
      intros _. split; [now exists e|].
      rewrite !existsb_app, !estimation_inputs_app, Hp1, Hp2.
      split; [reflexivity|]. simpl. intros df v a [<-|[]].
      rewrite search_and_estimate_eq, Hsearch. cbv zeta. rewrite Hfit.
      discriminate. }
  pose proof (ace_length _ _ _ Hfit) as Hace.
  simpl in Hace. rewrite Hvn in Hace.
  destruct (Nat.eqb (length (get_all_ace fitted)) 4) eqn:H4; simpl.
  - apply Nat.eqb_eq in H4.
    destruct (Nat.eqb (length (get_all_acs fitted)) 4).
    + intros H. injection H as <- _ <-. split; [intros; congruence|].
      intros Hne. exfalso. congruence.
    + intros H. injection H as <- _ <-. split; [discriminate|].
      intros Hne. exfalso. congruence.
  - intros H. injection H as <- _ <-. split; [discriminate|].
    intros _. split; [now exists TypeError|].
    rewrite !existsb_app, Hp1. split; [reflexivity|]. reflexivity.
Qed.

(** C10. Each pass formats the ACE and the ACS vector with four
    conversions, after its search and its fit.  So a pass returns only
    when the aligned dataset has exactly four variables, that is, four
    names are both configured and keys of the mapping; with any other
    number the pass raises, with the [TypeError] of the format once its
    search and fit have returned; and a run that iterates completes only
    with four variables, and otherwise raises before any archive is
    written. *)
Theorem reporting_needs_four_variables {ES : ExternalSpec E}
        (self : CausalityClass) :
  let N := length (Np.intersect1d (var_names self) (Py.keys (D self))) in
  (forall i acc w r w' evs,
      bootstrap_iteration self i acc w = (r, w', evs) ->
      (forall acc', r = Ok acc' -> N = 4%nat) /\
      (N <> 4%nat ->
       (exists e, r = Raise e) /\
       existsb is_savez evs = false /\
       forall df v a,
         In df (estimation_inputs evs) ->
         fst (fst (search_and_estimate self df v)) = Ok a ->
         r = Raise TypeError)) /\
  (forall w r w' evs,
      1 <= boot_iter self ->
      bootrstapping self w = (r, w', evs) ->
      (r = Ok tt -> N = 4%nat) /\
      (N <> 4%nat ->
       exists e, r = Raise e /\ existsb is_savez evs = false)).
Proof.
  intros N. split.
  - intros i acc w r w' evs. apply pass_needs_four_variables.
  - intros w r w' evs Hiter Hrun.
    eapply iterating_run_needs_four_variables; eassumption.
Qed.

(** C5. The column names the dataset builder computes are the names that
    are both configured and keys of the mapping, in strictly increasing
    lexicographic order.  Any mapping with the same key set, whatever the
    order of its keys, gets the same names when it is built; the names
    are returned and label the frame; and column [j] of the matrix is the
    series of the [j]-th name. *)
Theorem column_order_is_sorted_intersection
        (self : CausalityClass) (d : list (string * Dataset)) :
  let names := Np.intersect1d (var_names self) (Py.keys d) in
  StronglySorted str_lt names /\
  (forall k, In k names <-> In k (var_names self) /\ In k (Py.keys d)) /\
  (forall d' w r w' evs,
      (forall k, In k (Py.keys d') <-> In k (Py.keys d)) ->
      generate_dataframe self d' w = (Ok r, w', evs) ->
      snd r = names /\
      df_var_names (fst r) = names /\
      forall j k, nth_error names j = Some k ->
        exists s, series_of d' k = Ok s /\
                  map (fun row => nth_error row j) (df_values (fst r)) =
                  map Some s).
Proof.
  intros names. split; [apply intersect1d_sorted|].
  split; [intros k; apply intersect1d_In|].
  intros d' w [frame names'] w' evs Hkeys Hrun.
  rewrite generate_dataframe_eq in Hrun.
  assert (Hal : aligned self d' = Ok (frame, names')) by congruence.
  destruct (aligned_ok _ _ Hal)
    as (Hn & Hvn & _ & dataset & n & Hser & Hall & Hvals & _).
  assert (Hsame : names' = names).
  { rewrite Hn. apply intersect1d_same_sets; [tauto|exact Hkeys]. }
  simpl. rewrite Hvn, Hsame. repeat split.
  intros j k Hj. rewrite Hsame in Hser.
  destruct (@Forall2_nth_left _ _ _ _ _ _ _ Hser Hj) as (s & Hs & Hk).
  exists s. split; [exact Hk|].
  rewrite Hvals. now apply transpose_column.
Qed.

(** C8 (amended). The archive is named by the output path, the word
    "bootstrap" and the variable names joined by underscores in the order
    in which the mapping supplies them.  Mappings that list the same names
    in the same order give the same name; and for non-empty mappings whose
    names contain no underscore, equal archive names mean equal name
    sequences. *)
Theorem archive_name_follows_supplied_order
        (d1 d2 : list (string * Dataset)) (cfg : Config) :
  archive_name (init d1 cfg) =
    String.append (String.append (cfg_path cfg) "bootstrap")
      (Py.join "_" (Py.keys d1)) /\
  (Py.keys d1 = Py.keys d2 ->
   archive_name (init d1 cfg) = archive_name (init d2 cfg)) /\
  (d1 <> [] -> d2 <> [] ->
   Forall (fun k => has_char "_" k = false) (Py.keys d1) ->
   Forall (fun k => has_char "_" k = false) (Py.keys d2) ->
   archive_name (init d1 cfg) = archive_name (init d2 cfg) ->
   Py.keys d1 = Py.keys d2).
Proof.
  unfold archive_name, init. simpl. split; [reflexivity|]. split.
  - now intros ->.
  - intros Hne1 Hne2 H1 H2 Heq. apply append_inj_l in Heq.
    apply join_underscore_inj; try assumption.
    + destruct d1; [congruence|discriminate].
    + destruct d2; [congruence|discriminate].
Qed.

End Claims.

(** * Concrete runs *)

Lemma lcg_draw_length (st pop n : nat) :
  length (fst (Toy.lcg_draw st pop n)) = n.
Proof.
  revert st. induction n as [|n IH]; intros st; simpl; [reflexivity|].
  now rewrite IH.
Qed.

Lemma lcg_draw_bound (st pop n : nat) :
  (0 < pop)%nat ->
  Forall (fun j => (j < pop)%nat) (fst (Toy.lcg_draw st pop n)).
Proof.
  intros Hpop. revert st.
  induction n as [|n IH]; intros st; simpl; constructor; [|apply IH].
  apply Nat.mod_upper_bound. lia.
Qed.

(** The small instance honours the contracts of the interface. *)
Lemma toy_external_spec : ExternalSpec Toy.external.
Proof.
  constructor; simpl.
  - apply lcg_draw_length.
  - apply lcg_draw_bound.
  - intros df ps tau m H. injection H as <-. simpl. apply length_map.
  - intros df ps tau m H. injection H as <-. simpl. apply length_map.
Qed.

(** In the scenario of the specification every pass searches a frame of
    228 rows and the archive gets five entries per collection. *)
Example scenario_240_months :
  outcome Toy.drawn4 = (Ok [0; 84; 168; 12; 96], []) /\
  map (fun df => length (df_values df)) (discovery_inputs (snd Toy.run4)) =
    [228; 228; 228; 228; 228]%nat /\
  map (fun ev =>
         match ev with
         | savez file inds coeffs aces acss =>
             Some (file, inds, length coeffs, length aces, length acss)
         | _ => None
         end) (filter is_savez (snd Toy.run4)) =
    [Some ("out/bootstrapX_Y_Z_Q"%string, [0; 84; 168; 12; 96],
           5%nat, 5%nat, 5%nat)].
Proof. vm_compute. repeat split. Qed.

(** With three variables a pass raises when it formats the metrics, after
    the search and the fit, and nothing is saved. *)
Example three_variables_one_pass :
  fst (fst (bootrstapping Toy.self3 Toy.start)) = Raise TypeError /\
  length (discovery_inputs (snd (bootrstapping Toy.self3 Toy.start))) = 1%nat /\
  existsb is_savez (snd (bootrstapping Toy.self3 Toy.start)) = false.
Proof. vm_compute. repeat split. Qed.

(** ** Instances of the claims *)

Lemma offsets_are_block_starts_witness :
  exists r0 r1 rest T,
    range_months Toy.self4 = r0 :: r1 :: rest /\
    first_series_length Toy.self4 = Ok T /\
    0 < r1 - r0 + 1 /\
    Py.len [0; 84; 168; 12; 96] = boot_iter Toy.self4 /\
    Forall (fun i => 0 <= i < T /\ (r1 - r0 + 1 | i))
           [0; 84; 168; 12; 96].
Proof.
  refine (@offsets_are_block_starts Toy.external toy_external_spec
            Toy.self4 Toy.start (final_world Toy.drawn4)
            [0; 84; 168; 12; 96] [] _).
  vm_compute. reflexivity.
Defined.

Lemma bootstrap_deterministic_witness :
  outcome (generate_random_indices
             (init Toy.data4 (Toy.config [1; 12] 5)) Toy.start) =
  outcome (generate_random_indices
             (init Toy.data4 Toy.other_config) Toy.other_start) /\
  outcome (bootrstapping (init Toy.data4 (Toy.config [1; 12] 5)) Toy.start) =
  outcome (bootrstapping (init Toy.data4 (Toy.config [1; 12] 5))
             Toy.other_start).
Proof.
  exact (@bootstrap_deterministic Toy.external Toy.data4
           (Toy.config [1; 12] 5) Toy.other_config Toy.start
           Toy.other_start eq_refl eq_refl).
Defined.

Lemma archive_written_once_after_loop_witness :
  exists inds fits before w0,
    generate_random_indices Toy.self4_short Toy.start = (Ok inds, w0, []) /\
    snd Toy.run4_short =
      before ++ [savez (archive_name Toy.self4_short) inds
                   (map get_val_matrix fits) (map get_all_ace fits)
                   (map get_all_acs fits)] /\
    existsb is_savez before = false /\
    Py.len inds = boot_iter Toy.self4_short /\
    length fits = length inds /\
    length (discovery_inputs before) = length inds /\
    estimation_inputs before = discovery_inputs before /\
    Forall2 (fun i df => trimmed_frame Toy.self4_short i = Ok df)
            inds (discovery_inputs before) /\
    Forall2
      (fun df fitted =>
         forall v, exists sp,
           search_and_estimate Toy.self4_short df v =
           (Ok (sp, get_val_matrix fitted),
            mkWorld (rng v) (Some fitted),
            [pcmci_run df (tau_min Toy.self4_short)
               (tau_max Toy.self4_short);
             mediation_fit df (fst sp) (tau_max Toy.self4_short)]))
      (discovery_inputs before) fits.
Proof.
  refine (@archive_written_once_after_loop Toy.external toy_external_spec
            Toy.self4_short Toy.start (final_world Toy.run4_short) (Ok tt)
            (snd Toy.run4_short) _).
  vm_compute. reflexivity.
Defined.

Lemma zero_iterations_write_an_empty_archive_witness :
  discovery_inputs (snd (bootrstapping Toy.self3_single Toy.start)) = [] /\
  estimation_inputs (snd (bootrstapping Toy.self3_single Toy.start)) = [] /\
  snd (bootrstapping Toy.self3_single Toy.start) =
    [savez (archive_name Toy.self3_single) [] [] [] []].
Proof.
  refine (@zero_iterations_write_an_empty_archive Toy.external
            toy_external_spec Toy.self3_single Toy.start
            (final_world (bootrstapping Toy.self3_single Toy.start))
            (Ok tt) (snd (bootrstapping Toy.self3_single Toy.start)) _ _).
  - reflexivity.
  - vm_compute. reflexivity.
Defined.

Lemma each_pass_removes_one_block_witness :
  exists full names block T inds w0 i,
    (forall v, generate_dataframe (init Toy.data4_short (Toy.config [1; 12] 3))
                 Toy.data4_short v =
               (Ok (mkDataFrame full (Np.arange T) names, names), v, [])) /\
    n_months (init Toy.data4_short (Toy.config [1; 12] 3)) = Ok block /\
    first_series_length (init Toy.data4_short (Toy.config [1; 12] 3)) = Ok T /\
    Py.len full = T /\
    generate_random_indices (init Toy.data4_short (Toy.config [1; 12] 3))
      Toy.start = (Ok inds, w0, []) /\
    In i inds /\
    Toy.first_frame4 = without_block full names i block /\
    Py.len (df_values Toy.first_frame4) = T - block.
Proof.
  refine (@each_pass_removes_one_block Toy.external toy_external_spec
            Toy.data4_short (Toy.config [1; 12] 3) Toy.start
            (final_world Toy.run4_short) (Ok tt) (snd Toy.run4_short)
            Toy.first_frame4 _ _).
  - vm_compute. reflexivity.
  - left. vm_compute. left. reflexivity.
Defined.

Lemma block_past_the_end_aborts_the_run_witness :
  (forall acc v,
      exists e evs',
        bootstrap_iteration (init Toy.data4_half_year (Toy.config [1; 12] 1))
          0 acc v = (Raise e, v, evs') /\
        discovery_inputs evs' = [] /\
        estimation_inputs evs' = [] /\
        (forall built,
            fst (fst (generate_dataframe
                        (init Toy.data4_half_year (Toy.config [1; 12] 1))
                        Toy.data4_half_year v)) = Ok built ->
            e = IndexError)) /\
  (exists e, fst (fst Toy.run4_half_year) = Raise e) /\
  existsb is_savez (snd Toy.run4_half_year) = false.
Proof.
  refine (@block_past_the_end_aborts_the_run Toy.external toy_external_spec
            Toy.data4_half_year (Toy.config [1; 12] 1) Toy.start
            (final_world Toy.run4_half_year)
            (final_world (generate_random_indices Toy.self4_half_year
                            Toy.start))
            (fst (fst Toy.run4_half_year)) (snd Toy.run4_half_year) []
            [0] 0 12 6 _ _ _ _ _ _).
  - vm_compute. reflexivity.
  - vm_compute. reflexivity.
  - vm_compute. reflexivity.
  - vm_compute. reflexivity.
  - left. reflexivity.
  - lia.
Defined.

Lemma misaligned_mapping_fails_witness :
  (exists e, forall w,
      generate_dataframe Toy.self_ragged Toy.data_ragged w =
      (Raise e, w, [])) /\
  (Toy.data_ragged = D Toy.self_ragged ->
   forall w,
     discovery_inputs (snd (bootrstapping Toy.self_ragged w)) = [] /\
     estimation_inputs (snd (bootrstapping Toy.self_ragged w)) = []).
Proof.
  refine (@misaligned_mapping_fails Toy.external Toy.self_ragged
            Toy.data_ragged _).
  right. exists "X"%string, "Y"%string, (Toy.ramp 0 6), (Toy.ramp 10 5).
  vm_compute. repeat split; auto. discriminate.
Defined.

Lemma reporting_needs_four_variables_witness :
  length (Np.intersect1d (var_names Toy.self4_short)
            (Py.keys (D Toy.self4_short))) = 4%nat /\
  fst (fst Toy.pass3) = Raise TypeError /\
  exists e, fst (fst Toy.run3) = Raise e /\
            existsb is_savez (snd Toy.run3) = false.
Proof.
  pose proof (@reporting_needs_four_variables Toy.external
                toy_external_spec Toy.self4_short) as H4.
  pose proof (@reporting_needs_four_variables Toy.external
                toy_external_spec Toy.self3) as H3.
  cbv zeta in H4, H3.
  split; [|split].
  - refine (proj1 (proj2 H4 Toy.start (Ok tt) (final_world Toy.run4_short)
                     (snd Toy.run4_short) _ _) eq_refl).
    + vm_compute. discriminate.
    + vm_compute. reflexivity.
  - refine (proj2 (proj2 (proj2 (proj1 H3 0 (mkCollected [] [] []) Toy.start
                                   (fst (fst Toy.pass3))
                                   (final_world Toy.pass3) (snd Toy.pass3) _)
                            _))
              Toy.frame3 Toy.start Toy.fitted3 _ _).
    + vm_compute. reflexivity.
    + vm_compute. discriminate.
    + vm_compute. left. reflexivity.
    + vm_compute. reflexivity.
  - refine (proj2 (proj2 H3 Toy.start (fst (fst Toy.run3))
                     (final_world Toy.run3) (snd Toy.run3) _ _) _).
    + vm_compute. discriminate.
    + vm_compute. reflexivity.
    + vm_compute. discriminate.
Defined.

(** C5: the object of the mapping X, Y, Z, Q builds, from the same
    series supplied as Q, Z, Y, X, the columns Q, X, Y, Z. *)
Lemma column_order_is_sorted_intersection_witness :
  snd (Toy.built Toy.built4_reordered) =
    Np.intersect1d (var_names Toy.self4_short) (Py.keys Toy.data4_short) /\
  df_var_names (fst (Toy.built Toy.built4_reordered)) =
    Np.intersect1d (var_names Toy.self4_short) (Py.keys Toy.data4_short) /\
  forall j k,
    nth_error
      (Np.intersect1d (var_names Toy.self4_short) (Py.keys Toy.data4_short))
      j = Some k ->
    exists s,
      series_of Toy.data4_short_reordered k = Ok s /\
      map (fun row => nth_error row j)
          (df_values (fst (Toy.built Toy.built4_reordered))) = map Some s.
Proof.
  refine (proj2 (proj2 (@column_order_is_sorted_intersection Toy.external
                          Toy.self4_short Toy.data4_short))
            Toy.data4_short_reordered Toy.start
            (Toy.built Toy.built4_reordered)
            (final_world Toy.built4_reordered)
            (snd Toy.built4_reordered) _ _).
  - intros k. simpl. tauto.
  - vm_compute. reflexivity.
Defined.

(** ** Where the specification and the code part *)

(** C2: with [boot_iter = 0] the bootstrap procedure completes, searches
    nothing and still writes an archive. *)
Lemma single_run_still_writes_archive :
  boot_iter Toy.self3_single = 0 /\
  outcome (bootrstapping Toy.self3_single Toy.start) =
    (Ok tt, [savez "out/bootstrapX_Y_Z" [] [] [] []]) /\
  existsb is_savez (snd (bootrstapping Toy.self3_single Toy.start)) = true /\
  discovery_inputs (snd (bootrstapping Toy.self3_single Toy.start)) = [].
Proof. vm_compute. repeat split. Qed.

(** C3: with 6 months and blocks of 12 the only offset is 0 and the run
    raises at the first deletion; with blocks of 4 the offsets drawn are
    0 and 4, the first pass searches a frame of 2 rows, and the second
    raises at its deletion.  Neither run writes an archive. *)
Example partial_block_runs :
  outcome (generate_random_indices Toy.self4_half_year Toy.start) =
    (Ok [0], []) /\
  outcome Toy.run4_half_year = (Raise IndexError, []) /\
  outcome (generate_random_indices Toy.self4_block4 Toy.start) =
    (Ok [0; 4], []) /\
  fst (fst Toy.run4_block4) = Raise IndexError /\
  map (fun df => length (df_values df))
      (discovery_inputs (snd Toy.run4_block4)) = [2%nat] /\
  existsb is_savez (snd Toy.run4_block4) = false.
Proof. vm_compute. repeat split. Qed.

(** C8: the same four names supplied in two orders give two archive
    names, and two different name sets give one archive name. *)
Lemma archive_name_depends_on_order :
  (forall k, In k (Py.keys Toy.data4) <->
             In k (Py.keys Toy.data4_reordered)) /\
  archive_name (init Toy.data4 (Toy.config [1; 12] 5)) =
    "out/bootstrapX_Y_Z_Q"%string /\
  archive_name (init Toy.data4_reordered (Toy.config [1; 12] 5)) =
    "out/bootstrapQ_Z_Y_X"%string /\
  String.eqb (archive_name (init Toy.data4 (Toy.config [1; 12] 5)))
    (archive_name (init Toy.data4_reordered (Toy.config [1; 12] 5))) =
    false /\
  Py.keys Toy.data_joined = ["A_B"%string] /\
  Py.keys Toy.data_split = ["A"%string; "B"%string] /\
  archive_name (init Toy.data_joined (Toy.config [1; 12] 5)) =
  archive_name (init Toy.data_split (Toy.config [1; 12] 5)).
Proof.
  split; [|vm_compute; repeat split].
  intros k. simpl. tauto.
Qed.

(** * Further properties of the class *)

(** ** When the offsets can be drawn *)

Section Drawing.
Context {E : External}.

Lemma getitem_raises_KeyError {A} (d : list (string * A)) (k : string)
      (e : exn) :
  Py.getitem d k = Raise e -> e = KeyError.
Proof.
  induction d as [|[k' v] t IH]; simpl.
  - intros H. now injection H.
  - destruct (String.eqb k' k); [discriminate|exact IH].
Qed.

Lemma getitem_ok_iff_key {A} (d : list (string * A)) (k : string) :
  (exists v, Py.getitem d k = Ok v) <-> In k (Py.keys d).
Proof.
  induction d as [|[k' v] t IH]; simpl.
  - split; [intros (v & H); discriminate|tauto].
  - destruct (String.eqb k' k) eqn:Hk.
    + apply String.eqb_eq in Hk. split; [now left|]. intros _. now exists v.
    + apply String.eqb_neq in Hk. rewrite IH. unfold Py.keys. tauto.
Qed.

Lemma n_months_raises (self : CausalityClass) :
  (length (range_months self) < 2)%nat -> n_months self = Raise IndexError.
Proof.
  unfold n_months, Py.index.
  destruct (range_months self) as [|r0 [|r1 rest]]; simpl; auto. lia.
Qed.

Lemma n_months_value (self : CausalityClass) (r0 r1 : Z) (rest : list Z) :
  range_months self = r0 :: r1 :: rest ->
  n_months self = Ok (Z.max 0 (r1 - r0 + 1)).
Proof.
  unfold n_months, Py.index. intros ->. simpl. f_equal.
  unfold Py.len, Py.range. rewrite length_map, length_seq. lia.
Qed.

Lemma first_series_length_value (self : CausalityClass) (k : string)
      (ds : Dataset) (rest : list (string * Dataset)) :
  D self = (k, ds) :: rest ->
  first_series_length self =
  result_bind (Py.getitem (variables ds) k) (fun s => Ok (Py.len s)).
Proof.
  unfold first_series_length, series_of, Py.index. intros ->. simpl.
  now rewrite String.eqb_refl.
Qed.

Lemma range_step_length (t n : Z) (a : list Z) :
  0 < n -> Py.range_step 0 t n = Ok a ->
  length a = Z.to_nat ((t + n - 1) / n).
Proof.
  intros Hn. unfold Py.range_step.
  destruct (n =? 0) eqn:Hz; [discriminate|].
  assert (Hlt : (0 <? n) = true) by now apply Z.ltb_lt.
  rewrite Hlt. intros H. injection H as <-.
  rewrite length_map, length_seq. f_equal. f_equal. lia.
Qed.

(** [generate_random_indices] in one equation: the state is reseeded at
    once, nothing is logged, and the mediator field is kept. *)
Lemma generate_random_indices_eq (self : CausalityClass) (w : world) :
  generate_random_indices self w =
  match sample_size self with
  | Raise e =>
      (Raise e, mkWorld (np_random_seed 113) (linear_mediator w), [])
  | Ok a =>
      if (Nat.eqb (length a) 0 && negb (boot_iter self =? 0))%bool
         || (boot_iter self <? 0)
      then (Raise ValueError,
            mkWorld (np_random_seed 113) (linear_mediator w), [])
      else
        let drawn := np_random_randint (np_random_seed 113) (length a)
                       (Z.to_nat (boot_iter self)) in
        (Ok (map (fun j => nth j a 0) (fst drawn)),
         mkWorld (snd drawn) (linear_mediator w), [])
  end.
Proof.
  unfold generate_random_indices, sample_size, np_random_choice, bind,
    lift, ret, put_rng, get_rng. simpl.
  destruct (n_months self) as [n|]; simpl; [|reflexivity].
  destruct (first_series_length self) as [t|]; simpl; [|reflexivity].
  destruct (Py.range_step 0 t n) as [a|]; simpl; [|reflexivity].
  destruct (Nat.eqb (length a) 0 && negb (boot_iter self =? 0))%bool;
    simpl; [reflexivity|].
  destruct (boot_iter self <? 0); reflexivity.
Qed.

(** The population [range(0, T, n_mons)] when the configuration and the
    first series are in order. *)
Lemma sample_size_value (self : CausalityClass) (r0 r1 : Z) (rest : list Z)
      (k : string) (ds : Dataset) (rest_d : list (string * Dataset))
      (s : list value) :
  range_months self = r0 :: r1 :: rest ->
  D self = (k, ds) :: rest_d ->
  Py.getitem (variables ds) k = Ok s ->
  sample_size self = Py.range_step 0 (Py.len s) (Z.max 0 (r1 - r0 + 1)).
Proof.
  intros Hrm HD Hs. unfold sample_size.
  rewrite (n_months_value _ Hrm), (first_series_length_value _ HD), Hs.
  reflexivity.
Qed.

Lemma range_step_nonempty (t n : Z) (a : list Z) :
  0 < n -> 0 <= t -> Py.range_step 0 t n = Ok a -> (a = [] <-> t = 0).
Proof.
  intros Hn Ht Hstep. pose proof (range_step_length _ Hn Hstep) as Hlen.
  split.
  - intros ->. simpl in Hlen.
    destruct (Z.eq_dec t 0) as [|Hne]; [assumption|exfalso].
    assert (1 <= (t + n - 1) / n) by (apply Z.div_le_lower_bound; lia).
    lia.
  - intros ->. replace ((0 + n - 1) / n) with 0 in Hlen
      by (symmetry; apply Z.div_small; lia).
    now destruct a.
Qed.

(** X1. [generate_random_indices] returns exactly when [range_months] has
    two entries with [range_months[0] <= range_months[1]], the mapping is
    not empty, its first data set holds a variable named like its key,
    [boot_iter] is not negative, and that series is not empty unless
    [boot_iter] is 0. *)
Theorem generate_random_indices_returns_iff
        (self : CausalityClass) (w : world) :
  (exists inds w' evs,
      generate_random_indices self w = (Ok inds, w', evs)) <->
  (exists r0 r1 rest k ds rest_d s,
      range_months self = r0 :: r1 :: rest /\ r0 <= r1 /\
      D self = (k, ds) :: rest_d /\
      Py.getitem (variables ds) k = Ok s /\
      0 <= boot_iter self /\
      (s <> [] \/ boot_iter self = 0)).
Proof.
  split.
  - intros (inds & w' & evs & Hrun).
    apply generate_random_indices_ok in Hrun.
    destruct Hrun as (a & Hsample & Hiter & Hpop & _).
    unfold sample_size in Hsample.
    destruct (n_months self) as [n|] eqn:Hn; [|discriminate].
    destruct (first_series_length self) as [T|] eqn:HT; [|discriminate].
    simpl in Hsample.
    destruct (n_months_ok self Hn) as (r0 & r1 & rest & Hrm & ->).
    destruct (D self) as [|[k ds] rest_d] eqn:HD.
    { unfold first_series_length, Py.index in HT. rewrite HD in HT.
      discriminate. }
    rewrite (first_series_length_value _ HD) in HT.
    destruct (Py.getitem (variables ds) k) as [s|] eqn:Hs; [|discriminate].
    simpl in HT. injection HT as <-.
    pose proof Hsample as Hstep.
    apply range_step_ok in Hstep; [|lia]. destruct Hstep as (Hpos & _).
    exists r0, r1, rest, k, ds, rest_d, s.
    repeat split; auto; try lia.
    destruct Hpop as [Hne|Hz]; [left|now right].
    intros ->. apply Hne.
    apply (range_step_nonempty Hpos (Z.le_refl 0) Hsample). reflexivity.
  - intros (r0 & r1 & rest & k & ds & rest_d & s & Hrm & Hle & HD & Hs
            & Hiter & Hpop).
    rewrite generate_random_indices_eq.
    rewrite (sample_size_value _ Hrm HD Hs).
    destruct (Py.range_step 0 (Py.len s) (Z.max 0 (r1 - r0 + 1)))
      as [a|e] eqn:Hstep.
    + assert (Hguard :
                ((Nat.eqb (length a) 0 && negb (boot_iter self =? 0))%bool
                 || (boot_iter self <? 0)) = false).
      { apply orb_false_iff. split; [|apply Z.ltb_ge; lia].
        apply andb_false_iff. destruct Hpop as [Hne|Hz].
        - left. apply Nat.eqb_neq. intros Hlen. apply Hne.
          assert (Ha : a = []) by now destruct a.
          assert (Ht : Py.len s = 0).
          { apply (@range_step_nonempty (Py.len s) (Z.max 0 (r1 - r0 + 1)) a);
              try assumption; unfold Py.len; lia. }
          unfold Py.len in Ht. now destruct s.
        - right. rewrite Hz. reflexivity. }
      rewrite Hguard. eauto.
    + unfold Py.range_step in Hstep.
      destruct (Z.max 0 (r1 - r0 + 1) =? 0) eqn:Hz; [|discriminate].
      apply Z.eqb_eq in Hz. lia.
Qed.

(** X2. How [generate_random_indices] fails, in program order: a
    [range_months] of fewer than two entries, or an empty mapping, is an
    [IndexError]; a first data set without a variable named like its key
    is a [KeyError]; [range_months[1] < range_months[0]], a negative
    [boot_iter], or an empty first series with a non-zero [boot_iter], is
    a [ValueError].  Each failing call has logged nothing and leaves the
    generator seeded with 113 and the mediator field as it was. *)
Theorem generate_random_indices_failures
        (self : CausalityClass) (w : world) :
  let seeded := mkWorld (np_random_seed 113) (linear_mediator w) in
  ((length (range_months self) < 2)%nat ->
   generate_random_indices self w = (Raise IndexError, seeded, [])) /\
  (forall r0 r1 rest,
      range_months self = r0 :: r1 :: rest ->
      (D self = [] ->
       generate_random_indices self w = (Raise IndexError, seeded, [])) /\
      (forall k ds rest_d,
          D self = (k, ds) :: rest_d ->
          (~ In k (Py.keys (variables ds)) ->
           generate_random_indices self w = (Raise KeyError, seeded, [])) /\
          (forall s,
              Py.getitem (variables ds) k = Ok s ->
              r1 < r0 \/ boot_iter self < 0 \/
              (s = [] /\ boot_iter self <> 0) ->
              generate_random_indices self w =
              (Raise ValueError, seeded, [])))).
Proof.
  intros seeded. split.
  - intros Hshort. rewrite generate_random_indices_eq. unfold sample_size.
    now rewrite (n_months_raises _ Hshort).
  - intros r0 r1 rest Hrm. split.
    + intros HD. rewrite generate_random_indices_eq. unfold sample_size.
      rewrite (n_months_value _ Hrm). simpl.
      unfold first_series_length, Py.index. now rewrite HD.
    + intros k ds rest_d HD. split.
      * intros Hmiss. rewrite generate_random_indices_eq. unfold sample_size.
        rewrite (n_months_value _ Hrm), (first_series_length_value _ HD).
        simpl.
        destruct (Py.getitem (variables ds) k) as [s|e] eqn:Hs.
        -- exfalso. apply Hmiss. apply getitem_ok_iff_key. now exists s.
        -- simpl. now rewrite (getitem_raises_KeyError _ _ Hs).
      * intros s Hs Hbad. rewrite generate_random_indices_eq.
        rewrite (sample_size_value _ Hrm HD Hs).
        destruct (Z_lt_le_dec r1 r0) as [Hlt|Hle].
        { unfold Py.range_step.
          replace (Z.max 0 (r1 - r0 + 1)) with 0 by lia. reflexivity. }
        destruct (Py.range_step 0 (Py.len s) (Z.max 0 (r1 - r0 + 1)))
          as [a|e] eqn:Hstep.
        -- assert (Hguard :
                     ((Nat.eqb (length a) 0
                       && negb (boot_iter self =? 0))%bool
                      || (boot_iter self <? 0)) = true).
           { destruct Hbad as [Hbad|[Hneg|(-> & Hnz)]]; [lia| |].
             - apply orb_true_iff. right. now apply Z.ltb_lt.
             - apply orb_true_iff. left. apply andb_true_iff. split.
               + apply Nat.eqb_eq.
                 assert (Ha : a = []).
                 { apply (@range_step_nonempty 0 (Z.max 0 (r1 - r0 + 1)) a);
                     try lia. exact Hstep. }
                 now rewrite Ha.
               + apply negb_true_iff. now apply Z.eqb_neq. }
           now rewrite Hguard.
        -- unfold Py.range_step in Hstep.
           destruct (Z.max 0 (r1 - r0 + 1) =? 0) eqn:Hz; [|discriminate].
           apply Z.eqb_eq in Hz. lia.
Qed.

(** X3. With a non-empty first series, every block start of the
    population [range(0, T, n_mons)] has its whole block inside the series
    exactly when the block size divides the series length [T]; otherwise
    the last start's block overruns the series. *)
Theorem blocks_fit_iff_block_divides_length
        (self : CausalityClass) (a : list Z) (n T : Z) :
  sample_size self = Ok a ->
  n_months self = Ok n ->
  first_series_length self = Ok T ->
  0 < T ->
  (Forall (fun i => i + n <= T) a <-> (n | T)).
Proof.
  intros Hsample Hn HT Hpos. unfold sample_size in Hsample.
  rewrite Hn, HT in Hsample. simpl in Hsample.
  destruct (n_months_ok self Hn) as (r0 & r1 & rest & _ & Hmax).
  assert (Hn0 : 0 <= n) by lia.
  pose proof Hsample as Hstep.
  apply range_step_ok in Hstep; [|exact Hn0]. destruct Hstep as (Hnpos & _).
  unfold Py.range_step in Hsample.
  destruct (n =? 0); [discriminate|].
  assert (Hlt : (0 <? n) = true) by now apply Z.ltb_lt.
  rewrite Hlt in Hsample. injection Hsample as <-.
  set (q := (T - 0 + n - 1) / n).
  assert (Hq1 : n * q <= T + n - 1).
  { unfold q. replace (T - 0 + n - 1) with (T + n - 1) by lia.
    apply Z.mul_div_le. lia. }
  assert (Hq2 : T + n - 1 < n * q + n).
  { unfold q. replace (T - 0 + n - 1) with (T + n - 1) by lia.
    pose proof (Z.mul_succ_div_gt (T + n - 1) n Hnpos). lia. }
  assert (Hqpos : 1 <= q) by nia.
  rewrite Forall_forall. split.
  - intros Hall. exists q.
    assert (Hlast : Z.of_nat (Z.to_nat (q - 1)) * n + n <= T); [|nia].
    apply (Hall (Z.of_nat (Z.to_nat (q - 1)) * n)).
    apply in_map_iff. exists (Z.to_nat (q - 1)).
    split; [reflexivity|]. apply in_seq. lia.
  - intros (c & Hc) i Hin. apply in_map_iff in Hin.
    destruct Hin as (k & <- & Hk). apply in_seq in Hk.
    assert (Hcq : c = q) by nia. nia.
Qed.

End Drawing.

(** ** What the dataset builder returns and how it fails *)

Section Building.
Context {E : External}.

Lemma series_of_raises_KeyError (d : list (string * Dataset)) (k : string)
      (e : exn) :
  series_of d k = Raise e -> e = KeyError.
Proof.
  unfold series_of. destruct (Py.getitem d k) as [ds|e'] eqn:Hd; simpl.
  - apply getitem_raises_KeyError.
  - intros H. injection H as <-. exact (getitem_raises_KeyError _ _ Hd).
Qed.

Lemma result_map_list_raises {A B} (f : A -> result B) (l : list A)
      (e : exn) :
  result_map_list f l = Raise e -> exists x, In x l /\ f x = Raise e.
Proof.
  induction l as [|x t IH]; simpl; [discriminate|].
  destruct (f x) as [y|e'] eqn:Hx; simpl.
  - destruct (result_map_list f t) as [ys|e'']; simpl; [discriminate|].
    intros H. injection H as <-.
    destruct (IH eq_refl) as (x' & Hin & Hx'). exists x'. auto.
  - intros H. injection H as <-. exists x. auto.
Qed.

Lemma result_map_list_all_ok {A B} (f : A -> result B) (l : list A)
      (out : list B) :
  Forall2 (fun x y => f x = Ok y) l out -> result_map_list f l = Ok out.
Proof.
  induction 1 as [|x y t t' Hxy Hall IH]; simpl; [reflexivity|].
  now rewrite Hxy, IH.
Qed.

Lemma vstack_same_length {A} (rows : list (list A)) (n : nat) :
  rows <> [] -> Forall (fun r => length r = n) rows ->
  Np.vstack rows = Ok rows.
Proof.
  intros Hne Hall. destruct rows as [|r t]; [congruence|].
  unfold Np.vstack. inversion Hall as [|? ? Hr Ht]; subst.
  assert (Hb : forallb (fun r' => Nat.eqb (length r') (length r)) t = true).
  { apply forallb_forall. intros r' Hin. apply Nat.eqb_eq.
    rewrite Forall_forall in Ht. now apply Ht. }
  now rewrite Hb.
Qed.

Lemma vstack_raises {A} (rows : list (list A)) (e : exn) :
  Np.vstack rows = Raise e ->
  e = ValueError /\
  (rows = [] \/
   exists r1 r2, In r1 rows /\ In r2 rows /\ length r1 <> length r2).
Proof.
  unfold Np.vstack. destruct rows as [|r t].
  - intros H. injection H as <-. auto.
  - destruct (forallb _ t) eqn:Hall; [discriminate|].
    intros H. injection H as <-. split; [reflexivity|right].
    assert (Hex : exists r', In r' t /\ length r' <> length r).
    { clear - Hall. induction t as [|x t IH]; simpl in Hall; [discriminate|].
      apply andb_false_iff in Hall. destruct Hall as [Hx|Ht].
      - exists x. split; [now left|]. now apply Nat.eqb_neq.
      - destruct (IH Ht) as (r' & Hin & Hne). exists r'. split; auto.
        now right. }
    destruct Hex as (r' & Hin & Hne).
    exists r', r. repeat split; simpl; auto.
Qed.

(** Every row of the transposed array has one entry per stacked series. *)
Lemma transpose_row_length {A} (rows : list (list A)) (n : nat) :
  Forall (fun row => length row = length rows)
         (fold_right Np.zip_cons (repeat [] n) rows).
Proof.
  induction rows as [|c t IH]; simpl.
  - rewrite Forall_forall. intros row Hin. apply repeat_spec in Hin.
    now subst.
  - revert IH. generalize (fold_right Np.zip_cons (repeat [] n) t).
    intros rs. revert c.
    induction rs as [|r rs IHrs]; intros [|x c] Hall; simpl;
      try constructor.
    + inversion Hall; subst. simpl. congruence.
    + apply IHrs. now inversion Hall.
Qed.

Lemma arange_of_nat (n : nat) :
  Np.arange (Z.of_nat n) = map Z.of_nat (seq 0 n).
Proof.
  unfold Np.arange, Py.range.
  replace (Z.to_nat (Z.of_nat n - 0)) with n by lia.
  apply map_ext. intros k. lia.
Qed.

(** X4. The dataset builder returns exactly when at least one name is
    both configured and a key of the mapping, every such name has its
    series in the mapping, these series have one common length, and, in
    a single run ([boot_iter] 0), the time-series plot of the stacked
    frame could be written. *)
Theorem generate_dataframe_returns_iff
        (self : CausalityClass) (d : list (string * Dataset)) (w : world) :
  (exists r w' evs, generate_dataframe self d w = (Ok r, w', evs)) <->
  (Np.intersect1d (var_names self) (Py.keys d) <> [] /\
   exists dataset n,
     Forall2 (fun k s => series_of d k = Ok s)
             (Np.intersect1d (var_names self) (Py.keys d)) dataset /\
     Forall (fun s => length s = n) dataset /\
     (boot_iter self = 0 ->
      tp_plot_timeseries
        (mkDataFrame (Np.transpose dataset)
           (Np.arange (Py.len (Np.transpose dataset)))
           (Np.intersect1d (var_names self) (Py.keys d)))
        (String.append (save_path self) "timeseries_data_plot") = Ok tt)).
Proof.
  rewrite generate_dataframe_eq. split.
  - intros ([frame names] & w' & evs & H).
    assert (Hal : aligned self d = Ok (frame, names)) by congruence.
    destruct (aligned_ok _ _ Hal) as (_ & _ & Hne & _).
    unfold aligned, stacked_frame in Hal.
    destruct (result_map_list _ _) as [dataset|] eqn:Hmap; [|discriminate].
    simpl in Hal.
    destruct (Np.vstack dataset) as [stacked|] eqn:Hstack; [|discriminate].
    simpl in Hal.
    apply vstack_ok in Hstack. destruct Hstack as (-> & _ & Hall).
    apply result_map_list_ok in Hmap.
    split.
    { intros Hnil. rewrite Hnil in Hmap. inversion Hmap; subst.
      destruct (boot_iter self =? 0); simpl in Hal;
        [destruct (tp_plot_timeseries _ _); [|discriminate]|];
        simpl in Hal; injection Hal as _ E'; congruence. }
    exists dataset, (length (hd [] dataset)).
    split; [exact Hmap|]. split; [exact Hall|].
    intros Hz. apply Z.eqb_eq in Hz. rewrite Hz in Hal.
    destruct (tp_plot_timeseries _ _) as [[]|]; [reflexivity|discriminate].
  - intros (Hne & dataset & n & Hser & Hlen & Hplot).
    unfold aligned, stacked_frame.
    rewrite (result_map_list_all_ok _ Hser). simpl.
    assert (Hdne : dataset <> []).
    { intros ->. inversion Hser. congruence. }
    rewrite (vstack_same_length Hdne Hlen). simpl.
    destruct (boot_iter self =? 0) eqn:Hz; simpl; [|eauto].
    apply Z.eqb_eq in Hz. rewrite (Hplot Hz). simpl. eauto.
Qed.

(** X5. A frame the builder returns is rectangular: it has one row per
    time step of the common series length [T], every row has one entry
    per returned name, and its time axis is [0, 1, ..., T-1].  The call
    leaves the state as it was, and its only event is the time-series
    plot, made exactly when [boot_iter] is 0. *)
Theorem generate_dataframe_shape
        (self : CausalityClass) (d : list (string * Dataset))
        (w w' : world) (frame : DataFrame value) (names : list string)
        (evs : list event) :
  generate_dataframe self d w = (Ok (frame, names), w', evs) ->
  w' = w /\
  evs = (if boot_iter self =? 0
         then [plot_timeseries frame
                 (String.append (save_path self) "timeseries_data_plot")]
         else []) /\
  exists T,
    (forall k, In k names ->
               exists s, series_of d k = Ok s /\ length s = T) /\
    length (df_values frame) = T /\
    Forall (fun row => length row = length names) (df_values frame) /\
    df_datatime frame = map Z.of_nat (seq 0 T).
Proof.
  rewrite generate_dataframe_eq. intros H.
  assert (Hal : aligned self d = Ok (frame, names)) by congruence.
  rewrite Hal in H. injection H as <- <-.
  split; [reflexivity|]. split; [reflexivity|].
  destruct (aligned_ok _ _ Hal)
    as (_ & _ & _ & dataset & n & Hser & Hall & Hvals & Hrows & Htime).
  exists n. repeat split.
  - intros k Hk.
    destruct (@Forall2_In_left _ _ _ _ _ _ Hser Hk) as (s & Hs & Hok).
    exists s. split; [exact Hok|].
    rewrite Forall_forall in Hall. now apply Hall.
  - exact Hrows.
  - rewrite Hvals, (Forall2_length Hser). apply transpose_row_length.
  - rewrite Htime. apply arange_of_nat.
Qed.

(** X6. The builder fails in three ways only, each time without
    changing the state and without any event: with [KeyError] when a
    retained name has no series in the mapping; with [ValueError] when
    every retained series was found but no name is retained or two
    retained series differ in length; and, in a single run ([boot_iter]
    0) whose frame was stacked, with the exception of the time-series
    plot when that plot cannot be written. *)
Theorem generate_dataframe_failures
        (self : CausalityClass) (d : list (string * Dataset))
        (w w' : world) (e : exn) (evs : list event) :
  generate_dataframe self d w = (Raise e, w', evs) ->
  w' = w /\ evs = [] /\
  ((e = KeyError /\
    exists k, In k (Np.intersect1d (var_names self) (Py.keys d)) /\
              series_of d k = Raise KeyError) \/
   (e = ValueError /\
    exists dataset,
      Forall2 (fun k s => series_of d k = Ok s)
              (Np.intersect1d (var_names self) (Py.keys d)) dataset /\
      (Np.intersect1d (var_names self) (Py.keys d) = [] \/
       exists s1 s2, In s1 dataset /\ In s2 dataset /\
                     length s1 <> length s2)) \/
   (boot_iter self = 0 /\
    exists dataset,
      Forall2 (fun k s => series_of d k = Ok s)
              (Np.intersect1d (var_names self) (Py.keys d)) dataset /\
      Np.vstack dataset = Ok dataset /\
      tp_plot_timeseries
        (mkDataFrame (Np.transpose dataset)
           (Np.arange (Py.len (Np.transpose dataset)))
           (Np.intersect1d (var_names self) (Py.keys d)))
        (String.append (save_path self) "timeseries_data_plot") =
      Raise e)).
Proof.
  rewrite generate_dataframe_eq. intros H.
  assert (Hal : aligned self d = Raise e) by congruence.
  rewrite Hal in H. injection H as <- <-.
  split; [reflexivity|]. split; [reflexivity|].
  unfold aligned, stacked_frame in Hal.
  destruct (result_map_list _ _) as [dataset|e'] eqn:Hmap; simpl in Hal.
  - right. destruct (Np.vstack dataset) as [stacked|e'] eqn:Hstack;
      simpl in Hal.
    + right. pose proof Hstack as Hst.
      apply vstack_ok in Hst. destruct Hst as (-> & _).
      apply result_map_list_ok in Hmap.
      destruct (boot_iter self =? 0) eqn:Hz; simpl in Hal; [|discriminate].
      apply Z.eqb_eq in Hz. split; [exact Hz|]. exists dataset.
      split; [exact Hmap|]. split; [exact Hstack|].
      destruct (tp_plot_timeseries _ _) as [|e'']; [discriminate|].
      simpl in Hal. now injection Hal as ->.
    + left. injection Hal as <-. apply vstack_raises in Hstack.
      destruct Hstack as (-> & Hwhy). split; [reflexivity|].
      apply result_map_list_ok in Hmap. exists dataset.
      split; [exact Hmap|]. destruct Hwhy as [->|Hragged]; [left|now right].
      now inversion Hmap.
  - left. injection Hal as <-.
    apply result_map_list_raises in Hmap. destruct Hmap as (k & Hk & Hraise).
    pose proof (series_of_raises_KeyError _ _ Hraise) as ->.
    split; [reflexivity|]. now exists k.
Qed.

(** X7. For an object built by [__init__] from a mapping with distinct
    keys, a frame the builder returns for that mapping drops no
    variable: its column names are a rearrangement of the keys, every
    row has one entry per key, and every key's series is one of the
    columns. *)
Theorem builder_keeps_every_key
        (d : list (string * Dataset)) (cfg : Config) (w w' : world)
        (frame : DataFrame value) (names : list string)
        (evs : list event) :
  NoDup (Py.keys d) ->
  generate_dataframe (init d cfg) d w = (Ok (frame, names), w', evs) ->
  Permutation (Py.keys d) names /\
  df_var_names frame = names /\
  length names = length d /\
  Forall (fun row => length row = length d) (df_values frame) /\
  forall k, In k (Py.keys d) ->
    exists j s,
      nth_error names j = Some k /\
      series_of d k = Ok s /\
      map (fun row => nth_error row j) (df_values frame) = map Some s.
Proof.
  intros Hnd Hrun. rewrite generate_dataframe_eq in Hrun.
  assert (Hal : aligned (init d cfg) d = Ok (frame, names)) by congruence.
  destruct (aligned_ok _ _ Hal)
    as (Hn & Hvn & _ & dataset & n & Hser & Hall & Hvals & _).
  simpl in Hn.
  assert (Hperm : Permutation (Py.keys d) names).
  { rewrite Hn. apply NoDup_Permutation; [exact Hnd| |].
    - apply strictly_sorted_NoDup, intersect1d_sorted.
    - intros k. rewrite intersect1d_In. tauto. }
  assert (Hlen : length names = length d).
  { rewrite <- (Permutation_length Hperm). unfold Py.keys.
    apply length_map. }
  split; [exact Hperm|]. split; [exact Hvn|]. split; [exact Hlen|].
  split.
  - rewrite Hvals, <- Hlen, (Forall2_length Hser).
    apply transpose_row_length.
  - intros k Hk.
    assert (Hin : In k names) by (eapply Permutation_in; eauto).
    destruct (In_nth_error _ _ Hin) as (j & Hj).
    destruct (@Forall2_nth_left _ _ _ _ _ _ _ Hser Hj) as (s & Hs & Hok).
    exists j, s. split; [exact Hj|]. split; [exact Hok|].
    rewrite Hvals. now apply transpose_column.
Qed.

(** X8. [plot_cens_graph] draws only when [save] is set, into the file
    named by the plot path, "cen" and the configured names joined by
    underscores, and labels the nodes with the configured names in the
    order of the mapping.  For an object built by [__init__], these
    labels are the column names of the built frame, in column order,
    exactly when the keys of the mapping are in strictly increasing
    order. *)
Theorem graph_labels_match_columns_iff_keys_sorted
        (d : list (string * Dataset)) (cfg : Config)
        (v : val_matrix) (l : link_matrix) :
  plot_cens_graph (init d cfg) v l false = None /\
  exists call,
    plot_cens_graph (init d cfg) v l true = Some call /\
    pg_var_names call = Py.keys d /\
    pg_save_name call =
      String.append (String.append (cfg_save_path cfg) "cen")
        (Py.join "_" (Py.keys d)) /\
    forall w w' frame names evs,
      generate_dataframe (init d cfg) d w = (Ok (frame, names), w', evs) ->
      (pg_var_names call = df_var_names frame <->
       StronglySorted str_lt (Py.keys d)).
Proof.
  split; [reflexivity|]. eexists. split; [reflexivity|]. simpl.
  split; [reflexivity|]. split; [reflexivity|].
  intros w w' frame names evs Hrun. rewrite generate_dataframe_eq in Hrun.
  assert (Hal : aligned (init d cfg) d = Ok (frame, names)) by congruence.
  destruct (aligned_ok _ _ Hal) as (Hn & -> & _). simpl in Hn. subst names.
  split.
  - intros ->. apply intersect1d_sorted.
  - intros Hs. apply strictly_sorted_unique;
      [exact Hs|apply intersect1d_sorted|].
    intros k. rewrite intersect1d_In. tauto.
Qed.

End Building.

(** ** The passes of a bootstrap run *)

Section Passes.
Context {E : External}.
Local Open Scope py_scope.

(** X9. A pass whose block [i, i + n_mons) runs past the end of the
    rebuilt frame raises [IndexError] at the deletion, before the causal
    search: nothing is searched, fitted or saved, and the state is as it
    was. *)
Theorem overrunning_block_raises
        (self : CausalityClass) (i : Z) (acc : collected) (w : world)
        (frame : DataFrame value) (names : list string) (n : Z) :
  fst (fst (generate_dataframe self (D self) w)) = Ok (frame, names) ->
  n_months self = Ok n ->
  0 < n -> 0 <= i ->
  Py.len (df_values frame) < i + n ->
  exists evs,
    bootstrap_iteration self i acc w = (Raise IndexError, w, evs) /\
    discovery_inputs evs = [] /\
    estimation_inputs evs = [] /\
    existsb is_savez evs = false.
Proof.
  intros Hbuilt Hn Hpos Hi Hover.
  rewrite generate_dataframe_eq in Hbuilt. simpl in Hbuilt.
  rewrite bootstrap_iteration_eq, Hbuilt, Hn. cbv zeta. simpl fst.
  rewrite (delete_overrun _ Hi Hpos Hover).
  eexists. split; [reflexivity|].
  unfold plot_events. destruct (boot_iter self =? 0); repeat split.
Qed.

Lemma bootstrap_iteration_never_plots (self : CausalityClass) (i : Z)
      (acc : collected) (w : world) :
  (boot_iter self =? 0) = false ->
  existsb is_plot_timeseries (snd (bootstrap_iteration self i acc w)) = false.
Proof.
  intros Hnz. rewrite bootstrap_iteration_eq. unfold plot_events.
  rewrite Hnz.
  destruct (aligned self (D self)) as [built|]; [|reflexivity].
  destruct (n_months self) as [n|]; [|reflexivity].
  destruct (Np.delete _ _) as [trimmed|]; [|reflexivity].
  cbv zeta. destruct (run_pcmci _ _ _) as [results|]; [|reflexivity].
  destruct (fit_model _ _ _) as [fitted|]; [|reflexivity].
  destruct (_ && _)%bool; reflexivity.
Qed.

Lemma bootstrap_loop_never_plots (self : CausalityClass)
      (rnd_inds : list Z) :
  (boot_iter self =? 0) = false ->
  forall acc w,
    existsb is_plot_timeseries (snd (bootstrap_loop self rnd_inds acc w))
    = false.
Proof.
  intros Hnz. induction rnd_inds as [|i rest IH]; intros acc w;
    [reflexivity|].
  simpl. unfold bind.
  pose proof (bootstrap_iteration_never_plots self i acc w Hnz) as Hpass.
  destruct (bootstrap_iteration self i acc w) as [[[acc1|e] w1] es1];
    simpl in Hpass; [|exact Hpass].
  specialize (IH acc1 w1).
  destruct (bootstrap_loop self rest acc1 w1) as [[r2 w2] es2].
  simpl in *. now rewrite existsb_app, Hpass, IH.
Qed.

(** X10. A bootstrap run never plots the time series: the plot of the
    dataset builder is reserved to [boot_iter = 0], and then the loop has
    no pass. *)
Theorem bootstrap_run_never_plots {ES : ExternalSpec E}
        (self : CausalityClass) (w w' : world) (r : result unit)
        (evs : list event) :
  bootrstapping self w = (r, w', evs) ->
  existsb is_plot_timeseries evs = false.
Proof.
  intros Hrun. apply bootrstapping_stages in Hrun.
  destruct Hrun as [(e & w0 & Hgen & -> & ->)
                   |(inds & w0 & r1 & w1 & es1 & Hgen & Hloop & Hend)];
    [reflexivity|].
  assert (Hes1 : existsb is_plot_timeseries es1 = false).
  { destruct (boot_iter self =? 0) eqn:Hz.
    - apply Z.eqb_eq in Hz.
      destruct (@drawn_offsets_spec E ES self _ _ _ _ Hgen)
        as (r0 & r1' & rest & T & _ & _ & _ & Hlen & _).
      assert (inds = []) as ->.
      { unfold Py.len in Hlen. destruct inds; [reflexivity|].
        simpl in Hlen. lia. }
      simpl in Hloop. unfold ret in Hloop. now injection Hloop as <- <- <-.
    - pose proof (bootstrap_loop_never_plots self inds Hz
                    (mkCollected [] [] []) w0) as Hnp.
      now rewrite Hloop in Hnp. }
  destruct Hend as [(e & _ & _ & ->)|(acc & _ & _ & ->)]; [exact Hes1|].
  rewrite existsb_app, Hes1. reflexivity.
Qed.



(** X12. The archive of a completed run holds, entry by entry and in the
    order of the passes, what Causal Search followed by the Mediation
    Estimator gives on each searched frame: the coefficient matrix that
    composite returns, and the ACE and ACS vectors of the model it
    leaves in the mediator field. *)
Theorem archive_holds_each_pass_output
        (self : CausalityClass) (w w' : world) (evs : list event) :
  bootrstapping self w = (Ok tt, w', evs) ->
  exists before inds fits,
    evs = before ++ [savez (archive_name self) inds
                       (map get_val_matrix fits) (map get_all_ace fits)
                       (map get_all_acs fits)] /\
    Forall2
      (fun df fitted =>
         forall v, exists sp,
           search_and_estimate self df v =
           (Ok (sp, get_val_matrix fitted), mkWorld (rng v) (Some fitted),
            [pcmci_run df (tau_min self) (tau_max self);
             mediation_fit df (fst sp) (tau_max self)]))
      (discovery_inputs before) fits.
Proof.
  intros Hrun. apply bootrstapping_stages in Hrun.
  destruct Hrun as [(e & w0 & _ & Habs & _)
                   |(inds & w0 & r1 & w1 & es1 & Hgen & Hloop & Hend)];
    [discriminate|].
  destruct Hend as [(e & _ & Habs & _)|(acc & -> & _ & ->)];
    [discriminate|].
  destruct (bootstrap_loop_ok _ _ _ _ Hloop) as (fits & Hfits & -> & _).
  exists es1, inds, fits. split; [reflexivity|].
  eapply Forall2_impl; [|exact Hfits].
  intros df fitted. apply fitted_on_search_and_estimate.
Qed.

(** X13. After a completed run the mediator field of the object is the
    model of the last pass, the one Causal Search and the Mediation
    Estimator leave on the last searched frame; a run without a pass
    leaves the field as it was. *)
Theorem mediator_after_run
        (self : CausalityClass) (w w' : world) (evs : list event) :
  bootrstapping self w = (Ok tt, w', evs) ->
  match rev (discovery_inputs evs) with
  | [] => linear_mediator w' = linear_mediator w
  | df :: _ =>
      exists fitted,
        linear_mediator w' = Some fitted /\
        forall v,
          linear_mediator (final_world (search_and_estimate self df v)) =
          Some fitted
  end.
Proof.
  intros Hrun. apply bootrstapping_completed in Hrun.
  destruct Hrun as (inds & w0 & acc & es1 & Hgen & Hloop & ->).
  destruct (bootstrap_loop_ok _ _ _ _ Hloop) as (fits & Hfits & _ & Hmed & _).
  assert (Hw0 : linear_mediator w0 = linear_mediator w).
  { rewrite generate_random_indices_eq in Hgen.
    destruct (sample_size self); [|discriminate].
    destruct (_ || _)%bool; [discriminate|]. now injection Hgen as _ <-. }
  simpl in Hmed. rewrite Hw0 in Hmed.
  rewrite discovery_inputs_app. simpl. rewrite app_nil_r.
  destruct (rev (discovery_inputs es1)) as [|df t] eqn:Hrev.
  - assert (Hnil : discovery_inputs es1 = []).
    { rewrite <- (rev_involutive (discovery_inputs es1)), Hrev.
      reflexivity. }
    rewrite Hnil in Hfits. inversion Hfits; subst. exact Hmed.
  - assert (Hsnoc : discovery_inputs es1 = rev t ++ [df]).
    { rewrite <- (rev_involutive (discovery_inputs es1)), Hrev.
      reflexivity. }
    rewrite Hsnoc in Hfits. apply Forall2_app_inv_l in Hfits.
    destruct Hfits as (fits1 & fits2 & _ & Hlast & ->).
    inversion Hlast as [|? fitted ? ? Hfit Hrest]; subst.
    inversion Hrest; subst.
    exists fitted. split.
    + rewrite Hmed, map_app. simpl. apply last_last.
    + intros v.
      destruct (fitted_on_search_and_estimate Hfit v) as (sp & ->).
      reflexivity.
Qed.

(** X14. The coefficient report needs a fitted model: on a fresh object,
    whose mediator field is still [None], [get_links_beta_coeffs] raises
    [AttributeError]; in the state a returning Causal Search and Mediation
    Estimator leave, it returns, without changing that state. *)
Theorem coefficient_report_needs_a_model
        (self : CausalityClass) (df : DataFrame value) (st : rng_state)
        (v : world) :
  get_links_beta_coeffs self (init_world st) =
    (Raise AttributeError, init_world st, []) /\
  (forall a,
      fst (fst (search_and_estimate self df v)) = Ok a ->
      get_links_beta_coeffs self
        (final_world (search_and_estimate self df v)) =
      (Ok tt, final_world (search_and_estimate self df v), [])).
Proof.
  split; [reflexivity|].
  intros a. rewrite search_and_estimate_eq.
  destruct (run_pcmci _ _ _) as [results|]; [|discriminate].
  cbv zeta. destruct (fit_model _ _ _) as [fitted|]; [|discriminate].
  intros _. reflexivity.
Qed.

End Passes.

(** ** Instances of the further properties *)

Lemma blocks_fit_iff_block_divides_length_witness :
  Forall (fun i => i + 12 <= 24) [0; 12] <-> (12 | 24).
Proof.
  refine (@blocks_fit_iff_block_divides_length Toy.external
            Toy.self4_short [0; 12] 12 24 _ _ _ _).
  - vm_compute. reflexivity.
  - vm_compute. reflexivity.
  - vm_compute. reflexivity.
  - lia.
Defined.

Lemma generate_dataframe_shape_witness :
  final_world Toy.built3 = Toy.start /\
  snd Toy.built3 =
    (if boot_iter Toy.self3 =? 0
     then [@plot_timeseries Toy.external (fst (Toy.built Toy.built3))
             (String.append (save_path Toy.self3) "timeseries_data_plot")]
     else []) /\
  exists T,
    (forall k, In k (snd (Toy.built Toy.built3)) ->
               exists s, series_of Toy.data3 k = Ok s /\ length s = T) /\
    length (df_values (fst (Toy.built Toy.built3))) = T /\
    Forall (fun row => length row = length (snd (Toy.built Toy.built3)))
           (df_values (fst (Toy.built Toy.built3))) /\
    df_datatime (fst (Toy.built Toy.built3)) = map Z.of_nat (seq 0 T).
Proof.
  refine (@generate_dataframe_shape Toy.external Toy.self3 Toy.data3
            Toy.start (final_world Toy.built3)
            (fst (Toy.built Toy.built3)) (snd (Toy.built Toy.built3))
            (snd Toy.built3) _).
  vm_compute. reflexivity.
Defined.

Lemma generate_dataframe_failures_witness :
  Toy.start = Toy.start /\ @nil (@event Toy.external) = [] /\
  ((FileNotFoundError = KeyError /\
    exists k,
      In k (Np.intersect1d (var_names Toy.self3_no_directory)
              (Py.keys Toy.data3)) /\
      series_of Toy.data3 k = Raise KeyError) \/
   (FileNotFoundError = ValueError /\
    exists dataset,
      Forall2 (fun k s => series_of Toy.data3 k = Ok s)
              (Np.intersect1d (var_names Toy.self3_no_directory)
                 (Py.keys Toy.data3)) dataset /\
      (Np.intersect1d (var_names Toy.self3_no_directory)
         (Py.keys Toy.data3) = [] \/
       exists s1 s2, In s1 dataset /\ In s2 dataset /\
                     length s1 <> length s2)) \/
   (boot_iter Toy.self3_no_directory = 0 /\
    exists dataset,
      Forall2 (fun k s => series_of Toy.data3 k = Ok s)
              (Np.intersect1d (var_names Toy.self3_no_directory)
                 (Py.keys Toy.data3)) dataset /\
      Np.vstack dataset = Ok dataset /\
      @tp_plot_timeseries Toy.external
        (mkDataFrame (Np.transpose dataset)
           (Np.arange (Py.len (Np.transpose dataset)))
           (Np.intersect1d (var_names Toy.self3_no_directory)
              (Py.keys Toy.data3)))
        (String.append (save_path Toy.self3_no_directory)
           "timeseries_data_plot") =
      Raise FileNotFoundError)).
Proof.
  refine (@generate_dataframe_failures Toy.external Toy.self3_no_directory
            Toy.data3 Toy.start Toy.start FileNotFoundError [] _).
  vm_compute. reflexivity.
Defined.

Lemma builder_keeps_every_key_witness :
  Permutation (Py.keys Toy.data3) (snd (Toy.built Toy.built3)) /\
  df_var_names (fst (Toy.built Toy.built3)) = snd (Toy.built Toy.built3) /\
  length (snd (Toy.built Toy.built3)) = length Toy.data3 /\
  Forall (fun row => length row = length Toy.data3)
         (df_values (fst (Toy.built Toy.built3))) /\
  forall k, In k (Py.keys Toy.data3) ->
    exists j s,
      nth_error (snd (Toy.built Toy.built3)) j = Some k /\
      series_of Toy.data3 k = Ok s /\
      map (fun row => nth_error row j)
          (df_values (fst (Toy.built Toy.built3))) = map Some s.
Proof.
  refine (@builder_keeps_every_key Toy.external Toy.data3
            (Toy.config [1; 2] 2) Toy.start (final_world Toy.built3)
            (fst (Toy.built Toy.built3)) (snd (Toy.built Toy.built3))
            (snd Toy.built3) _ _).
  - simpl. repeat constructor; simpl; intuition discriminate.
  - vm_compute. reflexivity.
Defined.

Lemma overrunning_block_raises_witness :
  exists evs,
    bootstrap_iteration Toy.self3_block4 4 (@mkCollected Toy.external [] [] [])
      Toy.start =
    (Raise IndexError, Toy.start, evs) /\
    discovery_inputs evs = [] /\
    estimation_inputs evs = [] /\
    existsb is_savez evs = false.
Proof.
  refine (@overrunning_block_raises Toy.external Toy.self3_block4 4
            (@mkCollected Toy.external [] [] []) Toy.start
            (fst (Toy.built (generate_dataframe Toy.self3_block4
                               (D Toy.self3_block4) Toy.start)))
            (snd (Toy.built (generate_dataframe Toy.self3_block4
                               (D Toy.self3_block4) Toy.start)))
            4 _ _ _ _ _).
  - vm_compute. reflexivity.
  - vm_compute. reflexivity.
  - lia.
  - lia.
  - vm_compute. reflexivity.
Defined.

Lemma bootstrap_run_never_plots_witness :
  existsb is_plot_timeseries (snd Toy.run4_short) = false.
Proof.
  refine (@bootstrap_run_never_plots Toy.external toy_external_spec
            Toy.self4_short Toy.start (final_world Toy.run4_short)
            (Ok tt) (snd Toy.run4_short) _).
  vm_compute. reflexivity.
Defined.


Lemma archive_holds_each_pass_output_witness :
  exists before inds fits,
    snd Toy.run4_short =
      before ++ [savez (archive_name Toy.self4_short) inds
                   (map get_val_matrix fits) (map get_all_ace fits)
                   (map get_all_acs fits)] /\
    Forall2
      (fun df fitted =>
         forall v, exists sp,
           search_and_estimate Toy.self4_short df v =
           (Ok (sp, get_val_matrix fitted), mkWorld (rng v) (Some fitted),
            [pcmci_run df (tau_min Toy.self4_short)
               (tau_max Toy.self4_short);
             mediation_fit df (fst sp) (tau_max Toy.self4_short)]))
      (discovery_inputs before) fits.
Proof.
  refine (@archive_holds_each_pass_output Toy.external Toy.self4_short
            Toy.start (final_world Toy.run4_short) (snd Toy.run4_short) _).
  vm_compute. reflexivity.
Defined.

Lemma mediator_after_run_witness :
  match rev (discovery_inputs (snd Toy.run4_short)) with
  | [] => linear_mediator (final_world Toy.run4_short) =
          linear_mediator Toy.start
  | df :: _ =>
      exists fitted,
        linear_mediator (final_world Toy.run4_short) = Some fitted /\
        forall v,
          linear_mediator
            (final_world (search_and_estimate Toy.self4_short df v)) =
          Some fitted
  end.
Proof.
  refine (@mediator_after_run Toy.external Toy.self4_short Toy.start
            (final_world Toy.run4_short) (snd Toy.run4_short) _).
  vm_compute. reflexivity.
Defined.
